(** * FESTIM boundary conditions: a shallow embedding and its properties

    The development follows [FESTIM/boundary_conditions.py] (the builders of
    the essential constraints and of the flux terms, and the three
    user-expression classes) and
    [festim/boundary_conditions/fluxes/mass_flux.py] (the mass-transfer
    flux).

    Conventions of the embedding.
    - A Python dictionary is a [gmap string pyval]; a missing key raises
      [KeyError], as indexing does in Python.
    - Python exceptions are the [Raise] results of the [result] monad.
    - Python floats are idealised as real numbers: the formulas the code
      evaluates are stated and compared in exact arithmetic.  Division is
      checked: a zero divisor raises [ZeroDivisionError].  [x ** 0.5] is the
      real square root for [0 <= x]; for [x < 0] Python produces a complex
      number, which the float slot [value[0]] rejects with a [TypeError].
      Where rounding decides a property, the arithmetic of the two
      evaluation methods is also given on binary64 doubles (module
      [Double]).
    - Objects built by the external libraries (fenics [Expression],
      [DirichletBC], sub-spaces) are recorded as data: constructing them
      never fails in the model. *)

From Stdlib Require Import Floats.
From Stdlib Require Import Reals Lra ZArith List String.
From stdpp Require Import gmap strings list fin_maps.

Local Open Scope string_scope.
Local Open Scope list_scope.

(** ** Exceptions and the error monad *)

Inductive exn : Type :=
| KeyError (key : string)
| NameError (msg : string)
| ValueError (msg : string)
| TypeError
| ZeroDivisionError
| MaterialNotFound (mat_id : Z)
| UFLException (msg : string).

Inductive result (A : Type) : Type :=
| Ok (a : A)
| Raise (e : exn).

Arguments Ok {A} a.
Arguments Raise {A} e.

#[global] Instance result_ret : MRet result := fun A a => Ok a.
#[global] Instance result_bind : MBind result := fun A B k m =>
  match m with
  | Ok a => k a
  | Raise e => Raise e
  end.

Definition is_Ok {A : Type} (m : result A) : Prop := exists a, m = Ok a.

(** ** Python values found in the declarations *)

Inductive pyval : Type :=
| VNone
| VInt (z : Z)
| VFloat (r : R)
| VStr (s : string)
| VSym (code : string)          (* a sympy expression, by its printed form *)
| VList (l : list Z).           (* a list of surface ids *)

(** Python's [==] on these values. *)
Definition py_eq (a b : pyval) : bool :=
  match a, b with
  | VNone, VNone => true
  | VInt x, VInt y => Z.eqb x y
  | VFloat x, VFloat y => if Req_dec_T x y then true else false
  | VInt x, VFloat y => if Req_dec_T (IZR x) y then true else false
  | VFloat x, VInt y => if Req_dec_T x (IZR y) then true else false
  | VStr s, VStr s' => String.eqb s s'
  | VSym s, VSym s' => String.eqb s s'
  | VList l, VList l' => if decide (l = l') then true else false
  | _, _ => false
  end.

(** [v in strs] for a list of string literals. *)
Definition py_in (v : pyval) (strs : list string) : bool :=
  existsb (fun s => py_eq v (VStr s)) strs.

(** [prefix + v]: only a [str] can be appended to a [str]. *)
Definition str_add (prefix : string) (v : pyval) : result string :=
  match v with
  | VStr s => Ok (prefix ++ s)%string
  | _ => Raise TypeError
  end.

(** [d[key]] *)
Definition getitem (d : gmap string pyval) (key : string) : result pyval :=
  match d !! key with
  | Some v => Ok v
  | None => Raise (KeyError key)
  end.

(** [key in d.keys()] *)
Definition has_key (d : gmap string pyval) (key : string) : bool :=
  match d !! key with
  | Some _ => true
  | None => false
  end.

(** [for a in l: st = body st a], stopping at the first exception. *)
Fixpoint for_each {A St : Type} (body : St -> A -> result St)
    (l : list A) (st : St) : result St :=
  match l with
  | [] => Ok st
  | a :: l' => st' ← body st a; for_each body l' st'
  end.

(** ** Checked float arithmetic *)

Definition to_float (v : pyval) : result R :=
  match v with
  | VFloat r => Ok r
  | VInt z => Ok (IZR z)
  | _ => Raise TypeError
  end.

(** [a / b] *)
Definition fdiv (a b : R) : result R :=
  if Req_dec_T b 0 then Raise ZeroDivisionError else Ok (a / b)%R.

(** [a ** 0.5] stored into a float slot *)
Definition fsqrt (a : R) : result R :=
  if Rlt_dec a 0 then Raise TypeError else Ok (sqrt a).

(** ** External objects *)

(** An evaluation point. *)
Definition point : Type := list R.

(** [fenics.Expression(sp.printing.ccode(e), t=.., degree=..)]: the compiled
    expression remembers what it was compiled from, its time parameter and
    its degree. *)
Record Expression : Type := mkExpression {
  ccode : pyval;
  t : R;
  degree : Z
}.

(** A mesh function: cell (or facet) index to marker id. *)
Record MeshFunction : Type := mkMeshFunction {
  mesh : nat;                        (* the mesh, by its number of cells *)
  marker : nat -> Z
}.

(** [V] and [V.sub(component)]. *)
Inductive FunctionSpace : Type :=
| Space (num_sub_spaces : nat)
| SubSpace (V : FunctionSpace) (component : pyval).

Definition num_sub_spaces (V : FunctionSpace) : nat :=
  match V with
  | Space n => n
  | SubSpace _ _ => O
  end.

(** ** The Arrhenius factor

    The source writes [P_0*exp(-E/FESTIM.k_B/T(x))] in place each time it is
    needed; Python evaluates [-E], the two divisions, [exp] and then the
    product with [P_0], and the model raises in the same order.  [k_B] is the
    Boltzmann constant [FESTIM.k_B], a parameter of the development. *)
Definition arrhenius (k_B : R) (P_0 E : pyval) (Tx : R) : result R :=
  e ← to_float E;
  a ← fdiv (- e) k_B;
  b ← fdiv a Tx;
  p ← to_float P_0;
  mret (p * exp b)%R.

(** ** class BoundaryConditionRecomb *)
Module BoundaryConditionRecomb.

Record t : Type := __init__ {
  _phi : Expression;
  _R_p : Expression;
  _K_0 : pyval;
  _E_K : pyval;
  _D_0 : pyval;
  _E_D : pyval;
  _T : point -> R
}.

Section methods.
Variable k_B : R.
Variable call : Expression -> point -> R.

Definition eval (self : t) (x : point) : result R :=
  D ← arrhenius k_B (_D_0 self) (_E_D self) (_T self x);
  val ← fdiv (call (_phi self) x * call (_R_p self) x) D;
  match _K_0 self with
  | VNone => mret val
  | K_0 =>                               (* non-instantaneous recomb *)
      K ← arrhenius k_B K_0 (_E_K self) (_T self x);
      q ← fdiv (call (_phi self) x) K;
      r ← fsqrt q;
      mret (val + r)%R
  end.
End methods.

End BoundaryConditionRecomb.

(** ** class BoundaryConditionSolubility *)
Module BoundaryConditionSolubility.

Record t : Type := __init__ {
  _S_0 : pyval;
  _E_S : pyval;
  _pressure : Expression;
  _T : point -> R
}.

Section methods.
Variable k_B : R.
Variable call : Expression -> point -> R.

Definition eval (self : t) (x : point) : result R :=
  S ← arrhenius k_B (_S_0 self) (_E_S self) (_T self x);
  r ← fsqrt (call (_pressure self) x);
  mret (S * r)%R.
End methods.

End BoundaryConditionSolubility.

(** The values a Dirichlet condition can carry before the transform. *)
Inductive value_expression : Type :=
| Expr (e : Expression)
| Solubility (s : BoundaryConditionSolubility.t)
| Recomb (r : BoundaryConditionRecomb.t).

(** [bci(x)]: pointwise value of a boundary value. *)
Definition call_value (k_B : R) (call : Expression -> point -> R)
    (bci : value_expression) (x : point) : result R :=
  match bci with
  | Expr e => Ok (call e x)
  | Solubility s => BoundaryConditionSolubility.eval k_B call s x
  | Recomb r => BoundaryConditionRecomb.eval k_B call r x
  end.

(** Modelled from the spec: [FESTIM.helpers.find_material_from_id] is not
    among the sources.  Section 4.2: [resolve(materials, subdomain_id)]
    returns the material of the list whose [id] matches and fails with
    [MaterialNotFound] when none does. *)
Fixpoint find_material_from_id (materials : list (gmap string pyval))
    (mat_id : Z) : result (gmap string pyval) :=
  match materials with
  | [] => Raise (MaterialNotFound mat_id)
  | material :: rest =>
      id ← getitem material "id";
      if py_eq id (VInt mat_id) then Ok material
      else find_material_from_id rest mat_id
  end.

(** ** class BoundaryConditionTheta *)
Module BoundaryConditionTheta.

Record t : Type := __init__ {
  _bci : value_expression;
  _mesh : nat;
  _materials : list (gmap string pyval);
  _vm : MeshFunction;
  _T : point -> R
}.

Section methods.
Variable k_B : R.
Variable call : Expression -> point -> R.

(** [ufc_cell] is given by its index; [Cell(mesh, index)] is the cell
    with that index. *)
Definition eval_cell (self : t) (x : point) (ufc_cell : nat) : result R :=
  let cell := ufc_cell in
  let subdomain_id := marker (_vm self) cell in
  material ← find_material_from_id (_materials self) subdomain_id;
  S_0 ← getitem material "S_0";
  E_S ← getitem material "E_S";
  c ← call_value k_B call (_bci self) x;
  S ← arrhenius k_B S_0 E_S (_T self x);
  fdiv c S.
End methods.

End BoundaryConditionTheta.

(** The objects found in the list of expressions to update. *)
Inductive expression : Type :=
| Value (v : value_expression)
| Theta (th : BoundaryConditionTheta.t).

(** ** festim/boundary_conditions/fluxes/mass_flux.py

    [create_form] receives the temperature and the solute as symbolic fields
    and builds a symbolic form; a field is embedded as the function giving
    its value at each point.  The symbolic library folds constants while it
    builds: a product with the constant 0 is the constant 0, and a quotient
    by the constant 0 is refused with the error "Division by zero!".  The
    quotient [solute/S] is therefore refused exactly when [S_0] is 0. *)

Definition sieverts_constant (k_B : R) (T S_0 E_S : R) : R :=
  (S_0 * exp (- E_S / k_B / T))%R.

Definition henry_constant (k_B : R) (T H_0 E_H : R) : R :=
  (H_0 * exp (- E_H / k_B / T))%R.

Module MassFlux.

Record t : Type := Build {
  h_coeff : pyval;
  c_ext : pyval;
  pre_exp_liquid : R;
  activation_energy_liquid : R;
  S_0 : R;
  E_S : R;
  solubility_law : pyval;
  surfaces : pyval;
  field : pyval
}.

Definition __init__ (h_coeff c_ext solubility_law : pyval)
    (pre_exp_liquid activation_energy_liquid S_0 E_S : R)
    (surfaces : pyval) : t :=
  Build h_coeff c_ext pre_exp_liquid activation_energy_liquid S_0 E_S
    solubility_law surfaces (VInt 0).

Definition invalid_law : string :=
  "Invalid solubility law. Choose between 'sievert' or 'henry'".

Section methods.
Variable k_B : R.
Variable call : Expression -> point -> R.

(** [solute / S] for [S = S_0 * exp(..)]. *)
Definition quotient_by_S (self : t) (T solute : point -> R)
  : result (point -> R) :=
  if Req_dec_T (S_0 self) 0 then Raise (UFLException "Division by zero!")
  else
    Ok (fun x =>
          solute x / sieverts_constant k_B (T x) (S_0 self) (E_S self))%R.

(** The [if]/[elif]/[else] of [create_form]. *)
Definition c_interface_liquid (self : t) (T solute : point -> R)
  : result (point -> R) :=
  if py_eq (solubility_law self) (VStr "sievert") then
    let solubility_liquid := fun x =>
      sieverts_constant k_B (T x) (pre_exp_liquid self)
        (activation_energy_liquid self) in
    q ← quotient_by_S self T solute;
    mret (fun x => q x * solubility_liquid x)%R
  else if py_eq (solubility_law self) (VStr "henry") then
    let solubility_liquid := fun x =>
      henry_constant k_B (T x) (pre_exp_liquid self)
        (activation_energy_liquid self) in
    q ← quotient_by_S self T solute;
    mret (fun x => q x ^ 2 * solubility_liquid x)%R
  else Raise (ValueError invalid_law).

(** Returns the attributes it sets: [self.form] and
    [self.sub_expressions]. *)
Definition create_form (self : t) (T solute : point -> R)
  : result ((point -> R) * list Expression) :=
  let h := mkExpression (h_coeff self) 0 1 in
  let c := mkExpression (c_ext self) 0 1 in
  c_interface ← c_interface_liquid self T solute;
  mret (fun x => (- call h x * (c_interface x - call c x))%R, [h; c]).
End methods.

End MassFlux.

(** ** FESTIM/boundary_conditions.py: the builders *)

(** Modelled from the spec: the table [FESTIM.helpers.bc_types] is not among
    the sources.  Sections 4.4 and 4.5: the essential kinds are fixed-value,
    solubility and implantation-recombination (the ["dc"], ["solubility"]
    and ["dc_imp"] of the builder), the flux kind is ["flux"] and the Robin
    kind is ["recomb"]. *)
Definition bc_types (category : string) : list string :=
  if String.eqb category "dc" then ["dc"; "solubility"; "dc_imp"]
  else if String.eqb category "neumann" then ["flux"]
  else if String.eqb category "robin" then ["recomb"]
  else [].

Record Parameters : Type := mkParameters {
  boundary_conditions : list (gmap string pyval);
  materials : list (gmap string pyval);
  temperature_boundary_conditions : list (gmap string pyval)
}.

Record Simulation : Type := mkSimulation {
  parameters : Parameters;
  V : FunctionSpace;
  V_CG1 : FunctionSpace;
  volume_markers : MeshFunction;
  surface_markers : MeshFunction;
  T : point -> R;
  S : option (point -> R)
}.

Record DirichletBC : Type := mkDirichletBC {
  bc_space : FunctionSpace;
  bc_value : expression;
  bc_markers : MeshFunction;
  bc_surface : pyval
}.

(** [surfaces if type(surfaces) is list else [surfaces]] *)
Definition as_list (surfaces : pyval) : list pyval :=
  match surfaces with
  | VList l => VInt <$> l
  | v => [v]
  end.

Definition define_dirichlet_bc_T (simulation : Simulation)
    (st : list DirichletBC * list expression) (bc : gmap string pyval)
  : result (list DirichletBC * list expression) :=
  let '(bcs, expressions) := st in
  type_bc ← getitem bc "type";
  if py_eq type_bc (VStr "dc") then
    value ← getitem bc "value";
    let value := Value (Expr (mkExpression value 0 2)) in
    let expressions := expressions ++ [value] in
    surfaces ← getitem bc "surfaces";
    let surfaces := as_list surfaces in
    mret (bcs ++ (mkDirichletBC (V_CG1 simulation) value
                    (surface_markers simulation) <$> surfaces),
          expressions)
  else mret (bcs, expressions).

Definition define_dirichlet_bcs_T (simulation : Simulation)
  : result (list DirichletBC * list expression) :=
  for_each (define_dirichlet_bc_T simulation)
    (temperature_boundary_conditions (parameters simulation)) ([], []).

(** *** apply_fluxes *)

(** [solutions[0]], or [solutions[0]*S] under conservation of chemical
    potential. *)
Inductive solute_expr : Type :=
| Solute
| SoluteTimesS.

(** The symbolic flux of a term. *)
Inductive flux_expr : Type :=
| FluxExpression (e : Expression)
| FluxRecomb (Kr_0 : R) (exponent_times_T : R) (solute : solute_expr)
    (order : pyval).     (* -(Kr_0*exp(exponent_times_T/T))*solute**order *)

(** One summand [-test_solute*flux*ds(surf)] of the form. *)
Record flux_term : Type := mkTerm {
  term_flux : flux_expr;
  term_surface : pyval
}.

Definition unknown_type : string := "Unknown boundary condition type : ".

Definition conservation_chemic_pot_fluxes (simulation : Simulation) : bool :=
  match S simulation with
  | Some _ =>
      existsb (fun mat => has_key mat "S_0" || has_key mat "E_S")
        (materials (parameters simulation))
  | None => false
  end.

Definition apply_flux (k_B : R) (simulation : Simulation)
    (st : list flux_term * list expression) (bc : gmap string pyval)
  : result (list flux_term * list expression) :=
  let '(F, expressions) := st in
  let solute :=
    if conservation_chemic_pot_fluxes simulation then SoluteTimesS
    else Solute in
  type_bc ← getitem bc "type";
  if negb (py_in type_bc (bc_types "dc")) then
    if negb (py_in type_bc (bc_types "neumann"))
       && negb (py_in type_bc (bc_types "robin")) then
      msg ← str_add unknown_type type_bc;
      Raise (NameError msg)
    else
      '(flux, expressions) ←
        (if py_eq type_bc (VStr "flux") then
           value ← getitem bc "value";
           let flux := mkExpression value 0 2 in
           mret (FluxExpression flux, expressions ++ [Value (Expr flux)])
         else if py_eq type_bc (VStr "recomb") then
           Kr_0 ← getitem bc "Kr_0";
           E_Kr ← getitem bc "E_Kr";
           e ← to_float E_Kr;
           a ← fdiv (- e) k_B;
           k ← to_float Kr_0;
           order ← getitem bc "order";
           mret (FluxRecomb k a solute order, expressions)
         else
           (* not reached: ["flux"] and ["recomb"] are the only kinds of
              the two categories *)
           Raise (NameError "flux"));
      surfaces ← getitem bc "surfaces";
      mret (F ++ (mkTerm flux <$> as_list surfaces), expressions)
  else mret (F, expressions).

Definition apply_fluxes (k_B : R) (simulation : Simulation)
  : result (list flux_term * list expression) :=
  for_each (apply_flux k_B simulation)
    (boundary_conditions (parameters simulation)) ([], []).

(** *** apply_boundary_conditions *)

(** The loop over [parameters["materials"]] that sets the flag. *)
Definition conservation_chemic_pot (materials : list (gmap string pyval))
  : bool :=
  existsb (fun mat => has_key mat "S_0") materials.

(** [BC["component"]] if the key is there, else [0] (the solute). *)
Definition component_of (BC : gmap string pyval) : pyval :=
  match BC !! "component" with
  | Some component => component
  | None => VInt 0
  end.

(** The first [if]/[elif] chain of the loop body: the value of the
    condition, when its kind has one, and the expressions it registers. *)
Definition build_value (simulation : Simulation) (type_BC : pyval)
    (BC : gmap string pyval) (expressions : list expression)
  : result (option value_expression * list expression) :=
  if py_eq type_BC (VStr "dc") then
    value ← getitem BC "value";
    mret (Some (Expr (mkExpression value 0 4)), expressions)
  else if py_eq type_BC (VStr "solubility") then
    pressure ← getitem BC "pressure";
    let pressure := mkExpression pressure 0 2 in
    let expressions := expressions ++ [Value (Expr pressure)] in
    S_0 ← getitem BC "S_0";
    E_S ← getitem BC "E_S";
    mret (Some (Solubility (BoundaryConditionSolubility.__init__
                              S_0 E_S pressure (T simulation))),
          expressions)
  else if py_eq type_BC (VStr "dc_imp") then
    implanted_flux ← getitem BC "implanted_flux";
    let phi := mkExpression implanted_flux 0 1 in
    implantation_depth ← getitem BC "implantation_depth";
    let R_p := mkExpression implantation_depth 0 1 in
    let expressions := expressions ++ [Value (Expr phi); Value (Expr R_p)] in
    D_0 ← getitem BC "D_0";
    E_D ← getitem BC "E_D";
    '(K_0, E_K) ←
      (if has_key BC "K_0" && has_key BC "E_K" then
         K_0 ← getitem BC "K_0";
         E_K ← getitem BC "E_K";
         mret (K_0, E_K)                       (* non-instantaneous recomb *)
       else mret (VNone, VNone));              (* instantaneous recomb *)
    mret (Some (Recomb (BoundaryConditionRecomb.__init__
                          phi R_p K_0 E_K D_0 E_D (T simulation))),
          expressions)
  else mret (None, expressions).

Definition apply_boundary_condition (simulation : Simulation)
    (st : list DirichletBC * list expression) (BC : gmap string pyval)
  : result (list DirichletBC * list expression) :=
  let '(bcs, expressions) := st in
  type_BC ←
    (if has_key BC "type" then getitem BC "type"
     else Raise (KeyError "Missing boundary condition type key"));
  '(value_BC, expressions) ← build_value simulation type_BC BC expressions;
  if negb (py_in type_BC (bc_types "neumann"))
     && negb (py_in type_BC (bc_types "robin"))
     && negb (py_in type_BC (bc_types "dc")) then
    msg ← str_add unknown_type type_BC;
    Raise (NameError msg)
  else if py_in type_BC (bc_types "dc") then
    match value_BC with
    | None =>
        (* not reached: the kinds of category ["dc"] are those of the
           chain above *)
        Raise (NameError "value_BC")
    | Some value_BC =>
        let component := component_of BC in
        let '(value_BC, expressions) :=
          if py_eq component (VInt 0)
             && conservation_chemic_pot (materials (parameters simulation))
          then
            (Theta (BoundaryConditionTheta.__init__ value_BC
                      (mesh (volume_markers simulation))
                      (materials (parameters simulation))
                      (volume_markers simulation) (T simulation)),
             expressions ++ [Value value_BC])
          else (Value value_BC, expressions) in
        let expressions := expressions ++ [value_BC] in
        surfaces ← getitem BC "surfaces";
        let surfaces := as_list surfaces in
        let funspace :=
          if Nat.eqb (num_sub_spaces (V simulation)) 0 then V simulation
          else SubSpace (V simulation) component in
        mret (bcs ++ (mkDirichletBC funspace value_BC
                        (surface_markers simulation) <$> surfaces),
              expressions)
    end
  else mret (bcs, expressions).

Definition apply_boundary_conditions (simulation : Simulation)
  : result (list DirichletBC * list expression) :=
  for_each (apply_boundary_condition simulation)
    (boundary_conditions (parameters simulation)) ([], []).

(** ** The evaluations in double precision

    The arithmetic of the two [eval] methods on binary64 doubles, as Python
    floats and numpy doubles carry it out: [+], [*], [/] and the square
    root are correctly rounded.  Of the exponential only the value at zero
    is given, where C's [exp] returns exactly 1; elsewhere the model gives
    no value. *)
Module Double.

(** The double written [8.6e-5]. *)
Definition k_B : float := 0x1.68b5cbff47736p-14%float.

Definition exp (x : float) : option float :=
  if PrimFloat.eqb x 0%float then Some 1%float else None.

(** [P_0*exp(-E/k_B/T(x))] *)
Definition arrhenius (k_B P_0 E Tx : float) : option float :=
  e ← exp (- E / k_B / Tx)%float;
  Some (P_0 * e)%float.

(** [BoundaryConditionTheta.eval_cell], the last line: [c] is [bci(x)], and
    [S_0], [E_S] are those of the material of the cell. *)
Definition eval_cell (k_B c S_0 E_S Tx : float) : option float :=
  S ← arrhenius k_B S_0 E_S Tx;
  Some (c / S)%float.

(** [BoundaryConditionRecomb.eval] with numbers for every parameter but
    [K_0], which may be [None]. *)
Definition eval (k_B phi R_p : float) (K_0 : option float)
    (E_K D_0 E_D Tx : float) : option float :=
  D ← arrhenius k_B D_0 E_D Tx;
  let val := (phi * R_p / D)%float in
  match K_0 with
  | None => Some val
  | Some K_0 =>
      K ← arrhenius k_B K_0 E_K Tx;
      Some (val + PrimFloat.sqrt (phi / K))%float
  end.

End Double.

(** ** Notions used to state the properties *)

(** Section 4.1 of the specification: [P(T) = P_0 * exp(-E / (k_B * T))]. *)
Definition arrhenius_law (k_B P_0 E T : R) : R :=
  (P_0 * exp (- E / (k_B * T)))%R.

(** [s] occurs in [msg]. *)
Fixpoint occurs_in (s msg : string) : bool :=
  String.prefix s msg
  || match msg with
     | EmptyString => false
     | String _ rest => occurs_in s rest
     end.

(** A message names a tag when the tag is a string that occurs in it. *)
Definition names (msg : string) (tag : pyval) : Prop :=
  exists s, tag = VStr s /\ occurs_in s msg = true.

(** The kinds the builders recognise. *)
Definition recognized : list string :=
  bc_types "dc" ++ bc_types "neumann" ++ bc_types "robin".

(** A simulation with another list of conditions. *)
Definition with_conditions (simulation : Simulation)
    (l : list (gmap string pyval)) : Simulation :=
  mkSimulation
    (mkParameters l (materials (parameters simulation))
       (temperature_boundary_conditions (parameters simulation)))
    (V simulation) (V_CG1 simulation) (volume_markers simulation)
    (surface_markers simulation) (T simulation) (S simulation).

Definition with_temperature_conditions (simulation : Simulation)
    (l : list (gmap string pyval)) : Simulation :=
  mkSimulation
    (mkParameters (boundary_conditions (parameters simulation))
       (materials (parameters simulation)) l)
    (V simulation) (V_CG1 simulation) (volume_markers simulation)
    (surface_markers simulation) (T simulation) (S simulation).

(** The (condition, surface) pairs of the essential conditions of a list:
    a condition of a kind in [kinds] counts once per surface. *)
Definition pairs_of (kinds : list string) (BC : gmap string pyval) : nat :=
  match BC !! "type", BC !! "surfaces" with
  | Some type_BC, Some surfaces =>
      if py_in type_BC kinds then length (as_list surfaces) else O
  | _, _ => O
  end.

Definition pairs (kinds : list string) (l : list (gmap string pyval)) : nat :=
  foldr (fun BC n => (pairs_of kinds BC + n)%nat) O l.


(** Every declared material has the solubility parameters [(s0, es)]. *)
Definition uniform_solubility (materials : list (gmap string pyval))
    (s0 es : R) : Prop :=
  Forall (fun mat =>
            exists v0 ve, mat !! "S_0" = Some v0 /\ mat !! "E_S" = Some ve
                          /\ to_float v0 = Ok s0 /\ to_float ve = Ok es)
    materials.

(** The transform is applied to a condition: it targets component 0 and the
    mode is on. *)
Definition transformed (simulation : Simulation) (BC : gmap string pyval)
  : bool :=
  py_eq (component_of BC) (VInt 0)
  && conservation_chemic_pot (materials (parameters simulation)).

(** The transformed value of [v]. *)
Definition theta_of (simulation : Simulation) (v : value_expression)
  : expression :=
  Theta (BoundaryConditionTheta.__init__ v (mesh (volume_markers simulation))
           (materials (parameters simulation)) (volume_markers simulation)
           (T simulation)).

(** The space a condition constrains. *)
Definition funspace_of (simulation : Simulation) (BC : gmap string pyval)
  : FunctionSpace :=
  if Nat.eqb (num_sub_spaces (V simulation)) 0 then V simulation
  else SubSpace (V simulation) (component_of BC).

(** ** Notions used to state the further properties *)

(** The surface ids an essential condition constrains, in the order they are
    declared; a condition of another kind constrains none. *)
Definition surfaces_of (kinds : list string) (BC : gmap string pyval)
  : list pyval :=
  match BC !! "type", BC !! "surfaces" with
  | Some type_BC, Some surfaces =>
      if py_in type_BC kinds then as_list surfaces else []
  | _, _ => []
  end.

(** The expressions a condition adds to the list to update: one for a fixed
    value, the pressure and the value for a solubility, the flux, the depth
    and the value for an implantation, and the declared value once more
    when the transform is applied. *)
Definition registered_by (simulation : Simulation) (BC : gmap string pyval)
  : nat :=
  match BC !! "type" with
  | Some type_BC =>
      ((if py_eq type_BC (VStr "dc") then 1
        else if py_eq type_BC (VStr "solubility") then 2
        else if py_eq type_BC (VStr "dc_imp") then 3
        else 0)
       + (if py_in type_BC (bc_types "dc") && transformed simulation BC
          then 1 else 0))%nat
  | None => O
  end.

(** A value that is not a transformed one. *)
Definition untransformed (e : expression) : Prop :=
  match e with
  | Value _ => True
  | Theta _ => False
  end.

(** The kind of a condition is [kind]. *)
Definition is_kind (kind : string) (BC : gmap string pyval) : bool :=
  match BC !! "type" with
  | Some type_BC => py_eq type_BC (VStr kind)
  | None => false
  end.

(** Number of conditions of a list whose kind is [kind]. *)
Definition count_kind (kind : string) (l : list (gmap string pyval)) : nat :=
  foldr (fun BC n => ((if is_kind kind BC then 1 else 0) + n)%nat) O l.

(** The surfaces of a declaration as a collection: a list of ids is the
    collection of its ids, and a lone id is promoted to the collection of
    that one id. *)
Definition surface_set (surfaces : pyval) : list pyval :=
  match surfaces with
  | VList ids => VInt <$> ids
  | lone => [lone]
  end.

(** The number of surfaces of a declaration. *)
Definition surface_count (surfaces : pyval) : nat :=
  match surfaces with
  | VList ids => length ids
  | _ => 1%nat
  end.

(** The surfaces an essential condition declares, and how many. *)
Definition essential_surfaces (kinds : list string) (BC : gmap string pyval)
  : list pyval :=
  match BC !! "type", BC !! "surfaces" with
  | Some type_BC, Some surfaces =>
      if py_in type_BC kinds then surface_set surfaces else []
  | _, _ => []
  end.

Definition essential_pairs (kinds : list string)
    (l : list (gmap string pyval)) : nat :=
  foldr (fun BC n =>
           (match BC !! "type", BC !! "surfaces" with
            | Some type_BC, Some surfaces =>
                if py_in type_BC kinds then surface_count surfaces else O
            | _, _ => O
            end + n)%nat) O l.

(** ** Sample inputs *)

(** A mass-transfer condition with the tag "bogus". *)
Definition bogus_mass_flux : MassFlux.t :=
  MassFlux.__init__ (VFloat 1) (VFloat 0) (VStr "bogus") 1 0 1 0 (VInt 1).

(** A material with solubility parameters. *)
Definition tungsten : gmap string pyval :=
  <["id":=VInt 1]> (<["S_0":=VFloat 2]> (<["E_S":=VFloat 0]> ∅)).

(** A fixed-value condition on the surfaces 1 and 2. *)
Definition fixed_value : gmap string pyval :=
  <["type":=VStr "dc"]>
    (<["value":=VSym "1 + t"]> (<["surfaces":=VList [1%Z; 2%Z]]> ∅)).

(** An implantation-recombination condition that gives [K_0] without
    [E_K]. *)
Definition implantation_one_key : gmap string pyval :=
  <["type":=VStr "dc_imp"]>
    (<["implanted_flux":=VSym "1e18"]>
       (<["implantation_depth":=VSym "1e-9"]>
          (<["D_0":=VFloat 1]>
             (<["E_D":=VFloat 0]>
                (<["K_0":=VFloat 1]> (<["surfaces":=VInt 1]> ∅)))))).

(** A condition of the kind "bogus". *)
Definition bogus_condition : gmap string pyval :=
  <["type":=VStr "bogus"]>
    (<["value":=VSym "1"]> (<["surfaces":=VInt 1]> ∅)).

(** A simulation on a one-cell mesh at 300 K, with an undivided function
    space. *)
Definition sample_simulation (conditions mats thermal : list (gmap string pyval))
  : Simulation :=
  mkSimulation (mkParameters conditions mats thermal) (Space 0) (Space 0)
    (mkMeshFunction 1 (fun _ => 1%Z)) (mkMeshFunction 1 (fun _ => 1%Z))
    (fun _ => 300%R) (Some (fun _ => 1%R)).

(** The lists a builder returned. *)
Definition outcome (m : result (list DirichletBC * list expression))
  : list DirichletBC * list expression :=
  match m with
  | Ok st => st
  | Raise _ => ([], [])
  end.

(** Every compiled expression has the value 1 everywhere. *)
Definition sample_call : Expression -> point -> R := fun _ _ => 1%R.

Definition sample_recomb : BoundaryConditionRecomb.t :=
  BoundaryConditionRecomb.__init__
    (mkExpression (VSym "1e18") 0 1) (mkExpression (VSym "1e-9") 0 1)
    (VFloat 1) (VFloat 0) (VFloat 1) (VFloat 0) (fun _ => 300%R).

Definition sample_theta : BoundaryConditionTheta.t :=
  BoundaryConditionTheta.__init__ (Expr (mkExpression (VSym "1 + t") 0 4))
    1 [tungsten] (mkMeshFunction 1 (fun _ => 1%Z)) (fun _ => 300%R).

(** A mass-transfer condition with the tag "sievert" and [S_0 = 0]. *)
Definition zero_solubility_mass_flux : MassFlux.t :=
  MassFlux.__init__ (VFloat 1) (VFloat 0) (VStr "sievert") 1 0 0 0 (VInt 1).

(** A mass-transfer condition with the tag "sievert". *)
Definition sievert_mass_flux : MassFlux.t :=
  MassFlux.__init__ (VFloat 1) (VFloat 0) (VStr "sievert") 1 0 1 0 (VInt 1).

(** The sample conditions in a simulation, and what the builder of the
    concentration constraints makes of the fixed-value condition. *)
Definition transform_simulation : Simulation :=
  sample_simulation [fixed_value] [tungsten] [].

Definition transform_outcome : list DirichletBC * list expression :=
  outcome (apply_boundary_condition transform_simulation ([], []) fixed_value).

(** The fixed-value condition, declared for component 1. *)
Definition component_one : gmap string pyval :=
  <["component":=VInt 1]> fixed_value.

Definition component_one_outcome : list DirichletBC * list expression :=
  outcome (apply_boundary_condition transform_simulation ([], [])
             component_one).

(** A material that defines [E_S] and not [S_0], in a simulation whose
    solubility field is set. *)
Definition activation_only : gmap string pyval :=
  <["id":=VInt 1]> (<["E_S":=VFloat 0]> ∅).

Definition activation_simulation : Simulation :=
  sample_simulation [fixed_value] [activation_only] [].

Definition bogus_simulation : Simulation :=
  sample_simulation [fixed_value; bogus_condition] [tungsten] [].

Definition implantation_simulation : Simulation :=
  sample_simulation [implantation_one_key] [] [].

(** The value built for [implantation_one_key]. *)
Definition instantaneous_recomb : BoundaryConditionRecomb.t :=
  BoundaryConditionRecomb.__init__
    (mkExpression (VSym "1e18") 0 1) (mkExpression (VSym "1e-9") 0 1)
    VNone VNone (VFloat 1) (VFloat 0) (T implantation_simulation).

(** A flux term is as the builder writes it: a prescribed flux is a compiled
    expression of degree 2, a recombination flux is in [solute*S] when the
    mode of the builder is on and in the plain solute otherwise. *)
Definition flux_term_ok (simulation : Simulation) (term : flux_term) : Prop :=
  match term_flux term with
  | FluxExpression e => degree e = 2%Z
  | FluxRecomb _ _ solute _ =>
      solute = (if conservation_chemic_pot_fluxes simulation
                then SoluteTimesS else Solute)
  end.

(** ** Further sample inputs *)

(** A compiled constant evaluates to itself, any other expression to 1. *)
Definition constant_call : Expression -> point -> R :=
  fun e _ =>
    match ccode e with
    | VFloat r => r
    | VInt z => IZR z
    | _ => 1%R
    end.

(** A material without solubility parameters. *)
Definition steel : gmap string pyval := <["id":=VInt 2]> ∅.

(** A solubility value with the parameters of [tungsten], at the
    pressure 4. *)
Definition sample_solubility_4 : BoundaryConditionSolubility.t :=
  BoundaryConditionSolubility.__init__ (VFloat 2) (VFloat 0)
    (mkExpression (VFloat 4) 0 2) (fun _ => 300%R).

(** The transform of [sample_solubility_4] on a mesh whose cell 0 is
    steel. *)
Definition theta_in_steel : BoundaryConditionTheta.t :=
  BoundaryConditionTheta.__init__ (Solubility sample_solubility_4)
    1 [tungsten; steel] (mkMeshFunction 1 (fun _ => 2%Z)) (fun _ => 300%R).

(** An implantation value with [K_0] and no [E_K]. *)
Definition recomb_without_E_K : BoundaryConditionRecomb.t :=
  BoundaryConditionRecomb.__init__
    (mkExpression (VSym "1e18") 0 1) (mkExpression (VSym "1e-9") 0 1)
    (VFloat 1) VNone (VFloat 1) (VFloat 0) (fun _ => 300%R).

(** A prescribed flux and a recombination flux. *)
Definition flux_condition : gmap string pyval :=
  <["type":=VStr "flux"]>
    (<["value":=VSym "2*t"]> (<["surfaces":=VInt 3]> ∅)).

Definition recomb_condition : gmap string pyval :=
  <["type":=VStr "recomb"]>
    (<["Kr_0":=VFloat 1]>
       (<["E_Kr":=VFloat 0]>
          (<["order":=VInt 2]> (<["surfaces":=VList [1%Z; 2%Z]]> ∅)))).

(** A condition whose kind is a number. *)
Definition numbered_condition : gmap string pyval :=
  <["type":=VInt 5]> (<["surfaces":=VInt 1]> ∅).

(** An implantation-recombination condition that gives both [K_0] and
    [E_K]. *)
Definition implantation_both_keys : gmap string pyval :=
  <["E_K":=VFloat 0]> implantation_one_key.

(** A condition without a kind. *)
Definition typeless_condition : gmap string pyval :=
  <["value":=VSym "1"]> (<["surfaces":=VInt 1]> ∅).

Definition mixed_simulation : Simulation :=
  sample_simulation [flux_condition; fixed_value; recomb_condition]
    [tungsten] [fixed_value; bogus_condition].

(** The flux terms of [mixed_simulation] for [k_B = 1]. *)
Definition mixed_flux_terms : list flux_term :=
  [mkTerm (FluxExpression (mkExpression (VSym "2*t") 0 2)) (VInt 3);
   mkTerm (FluxRecomb 1 (- 0 / 1) SoluteTimesS (VInt 2)) (VInt 1);
   mkTerm (FluxRecomb 1 (- 0 / 1) SoluteTimesS (VInt 2)) (VInt 2)].

(** The fixed-value condition on the bare surface 3 and on the list that
    holds 3, each alone in a simulation and in its temperature list. *)
Definition bare_simulation : Simulation :=
  sample_simulation [<["surfaces":=VInt 3]> fixed_value] [tungsten]
    [<["surfaces":=VInt 3]> fixed_value].

Definition singleton_simulation : Simulation :=
  sample_simulation [<["surfaces":=VList [3%Z]]> fixed_value] [tungsten]
    [<["surfaces":=VList [3%Z]]> fixed_value].

(** * Properties *)

(** ** Generic facts *)

Lemma py_eq_str (v : pyval) (s : string) :
  py_eq v (VStr s) = true <-> v = VStr s.
Proof.
  destruct v; simpl; split; try discriminate.
  - intros H. apply String.eqb_eq in H. congruence.
  - intros H. injection H as ->. apply String.eqb_refl.
Qed.

Lemma py_in_str (s : string) (l : list string) :
  py_in (VStr s) l = true <-> In s l.
Proof.
  unfold py_in. rewrite existsb_exists. split.
  - intros (x & Hx & Heq). apply py_eq_str in Heq. congruence.
  - intros H. exists s. split; [assumption | simpl; apply String.eqb_refl].
Qed.

Lemma has_key_is_Some (d : gmap string pyval) (key : string) :
  has_key d key = true <-> is_Some (d !! key).
Proof.
  unfold has_key. destruct (d !! key) as [v|]; split; intros H.
  - eauto.
  - reflexivity.
  - discriminate.
  - destruct H as [v Hv]. discriminate.
Qed.

Lemma getitem_Ok (d : gmap string pyval) (key : string) (v : pyval) :
  getitem d key = Ok v <-> d !! key = Some v.
Proof.
  unfold getitem. destruct (d !! key); split; congruence.
Qed.

Lemma exponent_split (k_B E Tx : R) :
  (- E / k_B / Tx = - E / (k_B * Tx))%R.
Proof.
  unfold Rdiv. rewrite Rinv_mult. ring.
Qed.

Lemma sieverts_constant_law (k_B Tx S_0 E_S : R) :
  sieverts_constant k_B Tx S_0 E_S = arrhenius_law k_B S_0 E_S Tx.
Proof.
  unfold sieverts_constant, arrhenius_law. now rewrite exponent_split.
Qed.

Lemma henry_constant_law (k_B Tx H_0 E_H : R) :
  henry_constant k_B Tx H_0 E_H = arrhenius_law k_B H_0 E_H Tx.
Proof.
  unfold henry_constant, arrhenius_law. now rewrite exponent_split.
Qed.

(** ** The mass-transfer flux *)

Section mass_flux.
Variable k_B : R.
Variable call : Expression -> point -> R.

Lemma quotient_by_S_Ok (self : MassFlux.t) (T solute : point -> R) :
  MassFlux.S_0 self <> 0%R ->
  MassFlux.quotient_by_S k_B self T solute
  = Ok (fun x =>
          solute x
          / sieverts_constant k_B (T x) (MassFlux.S_0 self)
              (MassFlux.E_S self))%R.
Proof.
  intros HS. unfold MassFlux.quotient_by_S.
  destruct (Req_dec_T (MassFlux.S_0 self) 0); [contradiction | reflexivity].
Qed.

Lemma quotient_by_S_zero (self : MassFlux.t) (T solute : point -> R) :
  MassFlux.S_0 self = 0%R ->
  MassFlux.quotient_by_S k_B self T solute
  = Raise (UFLException "Division by zero!").
Proof.
  intros HS. unfold MassFlux.quotient_by_S.
  destruct (Req_dec_T (MassFlux.S_0 self) 0); [reflexivity | contradiction].
Qed.

Lemma c_interface_liquid_sievert (self : MassFlux.t) (T solute : point -> R) :
  MassFlux.solubility_law self = VStr "sievert" ->
  MassFlux.S_0 self <> 0%R ->
  MassFlux.c_interface_liquid k_B self T solute
  = Ok (fun x =>
          solute x
          / sieverts_constant k_B (T x) (MassFlux.S_0 self) (MassFlux.E_S self)
          * sieverts_constant k_B (T x) (MassFlux.pre_exp_liquid self)
              (MassFlux.activation_energy_liquid self))%R.
Proof.
  intros Hlaw HS. unfold MassFlux.c_interface_liquid.
  now rewrite Hlaw, (quotient_by_S_Ok _ _ _ HS).
Qed.

Lemma c_interface_liquid_henry (self : MassFlux.t) (T solute : point -> R) :
  MassFlux.solubility_law self = VStr "henry" ->
  MassFlux.S_0 self <> 0%R ->
  MassFlux.c_interface_liquid k_B self T solute
  = Ok (fun x =>
          (solute x
           / sieverts_constant k_B (T x) (MassFlux.S_0 self)
               (MassFlux.E_S self)) ^ 2
          * henry_constant k_B (T x) (MassFlux.pre_exp_liquid self)
              (MassFlux.activation_energy_liquid self))%R.
Proof.
  intros Hlaw HS. unfold MassFlux.c_interface_liquid.
  now rewrite Hlaw, (quotient_by_S_Ok _ _ _ HS).
Qed.

Lemma c_interface_liquid_invalid (self : MassFlux.t) (T solute : point -> R) :
  py_eq (MassFlux.solubility_law self) (VStr "sievert") = false ->
  py_eq (MassFlux.solubility_law self) (VStr "henry") = false ->
  MassFlux.c_interface_liquid k_B self T solute
  = Raise (ValueError MassFlux.invalid_law).
Proof.
  intros Hs Hh. unfold MassFlux.c_interface_liquid. now rewrite Hs, Hh.
Qed.

(** C5, as the code has it. For a temperature [T x > 0] and a solubility
    factor [S_0] that is not zero, the tag "sievert" gives the interface
    concentration [(c/S(T)) * S_liquid(T)], that is power 1 of [c/S(T)],
    and the tag "henry" gives [(c/S(T))^2 * H_liquid(T)], power 2; the form
    is [-h_coeff * (c_interface - c_ext)] in both cases. *)
Theorem mass_flux_interface_law (self : MassFlux.t) (T solute : point -> R)
    (x : point) :
  (0 < k_B)%R -> (0 < T x)%R -> MassFlux.S_0 self <> 0%R ->
  let c := solute x in
  let S_T := arrhenius_law k_B (MassFlux.S_0 self) (MassFlux.E_S self) (T x) in
  let liquid_T :=
    arrhenius_law k_B (MassFlux.pre_exp_liquid self)
      (MassFlux.activation_energy_liquid self) (T x) in
  let h := mkExpression (MassFlux.h_coeff self) 0 1 in
  let c_ext := mkExpression (MassFlux.c_ext self) 0 1 in
  forall n : nat,
    (MassFlux.solubility_law self = VStr "sievert" /\ n = 1%nat)
    \/ (MassFlux.solubility_law self = VStr "henry" /\ n = 2%nat) ->
    exists c_interface form,
      MassFlux.c_interface_liquid k_B self T solute = Ok c_interface
      /\ c_interface x = ((c / S_T) ^ n * liquid_T)%R
      /\ MassFlux.create_form k_B call self T solute = Ok (form, [h; c_ext])
      /\ form x = (- call h x * (c_interface x - call c_ext x))%R.
Proof.
  intros Hk HT HS c S_T liquid_T h c_ext n [[Hlaw ->] | [Hlaw ->]].
  - eexists _, _. split; [now apply c_interface_liquid_sievert |].
    split.
    + subst c S_T liquid_T. cbv beta.
      rewrite !sieverts_constant_law. ring.
    + unfold MassFlux.create_form.
      rewrite (c_interface_liquid_sievert _ _ _ Hlaw HS). split; reflexivity.
  - eexists _, _. split; [now apply c_interface_liquid_henry |].
    split.
    + subst c S_T liquid_T. cbv beta.
      rewrite sieverts_constant_law, henry_constant_law. reflexivity.
    + unfold MassFlux.create_form.
      rewrite (c_interface_liquid_henry _ _ _ Hlaw HS). split; reflexivity.
Qed.

(** C2, as the code has it. A tag that is neither "sievert" nor "henry"
    makes [create_form] raise [ValueError] with one fixed message, which
    lists the two accepted tags whatever the tag was. *)
Theorem mass_flux_invalid_law (self : MassFlux.t) (T solute : point -> R) :
  py_eq (MassFlux.solubility_law self) (VStr "sievert") = false ->
  py_eq (MassFlux.solubility_law self) (VStr "henry") = false ->
  MassFlux.create_form k_B call self T solute
  = Raise (ValueError
             "Invalid solubility law. Choose between 'sievert' or 'henry'").
Proof.
  intros Hs Hh. unfold MassFlux.create_form.
  now rewrite (c_interface_liquid_invalid _ _ _ Hs Hh).
Qed.

End mass_flux.

(** C5 fails as stated: with the tag "sievert", a temperature of 300 and
    [S_0 = 0], building the form is refused with "Division by zero!" and no
    interface concentration is produced. *)
Lemma mass_flux_zero_solubility :
  (0 < 300)%R
  /\ MassFlux.solubility_law zero_solubility_mass_flux = VStr "sievert"
  /\ MassFlux.S_0 zero_solubility_mass_flux = 0%R
  /\ MassFlux.c_interface_liquid 1 zero_solubility_mass_flux
       (fun _ => 300%R) (fun _ => 1%R)
     = Raise (UFLException "Division by zero!")
  /\ MassFlux.create_form 1 (fun _ _ => 0%R) zero_solubility_mass_flux
       (fun _ => 300%R) (fun _ => 1%R)
     = Raise (UFLException "Division by zero!").
Proof.
  assert (MassFlux.c_interface_liquid 1 zero_solubility_mass_flux
            (fun _ => 300%R) (fun _ => 1%R)
          = Raise (UFLException "Division by zero!")) as H.
  { unfold MassFlux.c_interface_liquid.
    change (py_eq (MassFlux.solubility_law zero_solubility_mass_flux)
              (VStr "sievert")) with true.
    cbv iota. now rewrite quotient_by_S_zero. }
  split; [lra |]. split; [reflexivity |]. split; [reflexivity |].
  split; [exact H |]. unfold MassFlux.create_form. now rewrite H.
Qed.

(** C2 fails as stated: for the tag "bogus" the error raised carries the
    fixed message, and that message does not name the tag. *)
Lemma mass_flux_message_omits_tag :
  MassFlux.create_form 1 (fun _ _ => 0%R) bogus_mass_flux
    (fun _ => 300%R) (fun _ => 1%R)
  = Raise (ValueError
             "Invalid solubility law. Choose between 'sievert' or 'henry'")
  /\ ~ names "Invalid solubility law. Choose between 'sievert' or 'henry'"
        (MassFlux.solubility_law bogus_mass_flux).
Proof.
  split; [reflexivity |].
  intros (s & Hs & Hocc). injection Hs as <-. vm_compute in Hocc.
  discriminate.
Qed.

Lemma mass_flux_invalid_law_witness :
  py_eq (MassFlux.solubility_law bogus_mass_flux) (VStr "sievert") = false
  /\ py_eq (MassFlux.solubility_law bogus_mass_flux) (VStr "henry") = false
  /\ MassFlux.create_form 1 (fun _ _ => 0%R) bogus_mass_flux
       (fun _ => 300%R) (fun _ => 1%R)
     = Raise (ValueError
                "Invalid solubility law. Choose between 'sievert' or 'henry'").
Proof.
  split; [reflexivity |]. split; [reflexivity |].
  apply mass_flux_invalid_law; reflexivity.
Defined.

(** ** Checked arithmetic *)

Lemma fdiv_Ok (a b : R) : b <> 0%R -> fdiv a b = Ok (a / b)%R.
Proof.
  intros Hb. unfold fdiv. destruct (Req_dec_T b 0); [contradiction | reflexivity].
Qed.

Lemma fdiv_zero (a : R) : fdiv a 0 = Raise ZeroDivisionError.
Proof.
  unfold fdiv. destruct (Req_dec_T 0 0); [reflexivity | contradiction].
Qed.

Lemma fdiv_inv (a b q : R) : fdiv a b = Ok q -> b <> 0%R /\ q = (a / b)%R.
Proof.
  unfold fdiv. destruct (Req_dec_T b 0); [discriminate |].
  intros H. injection H as <-. now split.
Qed.

Lemma fsqrt_Ok (a : R) : (0 <= a)%R -> fsqrt a = Ok (sqrt a).
Proof.
  intros Ha. unfold fsqrt. destruct (Rlt_dec a 0); [lra | reflexivity].
Qed.

Lemma bind_Ok_inv {A B : Type} (m : result A) (k : A -> result B) (b : B) :
  (m ≫= k) = Ok b -> exists a, m = Ok a /\ k a = Ok b.
Proof.
  destruct m as [a | e]; simpl; [eauto | discriminate].
Qed.

Lemma arrhenius_law_neq_0 (k_B P_0 E Tx : R) :
  P_0 <> 0%R -> arrhenius_law k_B P_0 E Tx <> 0%R.
Proof.
  intros HP. unfold arrhenius_law.
  pose proof (exp_pos (- E / (k_B * Tx))). nra.
Qed.

Lemma arrhenius_law_pos (k_B P_0 E Tx : R) :
  (0 < P_0)%R -> (0 < arrhenius_law k_B P_0 E Tx)%R.
Proof.
  intros HP. unfold arrhenius_law.
  pose proof (exp_pos (- E / (k_B * Tx))). nra.
Qed.

Lemma arrhenius_Ok (k_B : R) (P_0 E : pyval) (Tx p e : R) :
  to_float P_0 = Ok p -> to_float E = Ok e ->
  k_B <> 0%R -> Tx <> 0%R ->
  arrhenius k_B P_0 E Tx = Ok (arrhenius_law k_B p e Tx).
Proof.
  intros HP HE Hk HT. unfold arrhenius.
  rewrite HE. simpl. rewrite (fdiv_Ok _ _ Hk). simpl.
  rewrite (fdiv_Ok _ _ HT). simpl. rewrite HP. simpl.
  unfold arrhenius_law. now rewrite exponent_split.
Qed.

Lemma arrhenius_inv (k_B : R) (P_0 E : pyval) (Tx v : R) :
  arrhenius k_B P_0 E Tx = Ok v ->
  exists p e, to_float P_0 = Ok p /\ to_float E = Ok e
              /\ k_B <> 0%R /\ Tx <> 0%R /\ v = arrhenius_law k_B p e Tx.
Proof.
  unfold arrhenius. intros H.
  apply bind_Ok_inv in H as (e & HE & H).
  apply bind_Ok_inv in H as (a & Ha & H).
  apply bind_Ok_inv in H as (b & Hb & H).
  apply bind_Ok_inv in H as (p & HP & H).
  apply fdiv_inv in Ha as [Hk ->]. apply fdiv_inv in Hb as [HT ->].
  injection H as <-. exists p, e. repeat split; try assumption.
  unfold arrhenius_law. now rewrite exponent_split.
Qed.

Lemma find_material_from_id_elem (materials : list (gmap string pyval))
    (mat_id : Z) (material : gmap string pyval) :
  find_material_from_id materials mat_id = Ok material ->
  material ∈ materials.
Proof.
  induction materials as [| m ms IH]; simpl; [discriminate |].
  intros H. apply bind_Ok_inv in H as (id & Hid & H).
  destruct (py_eq id (VInt mat_id)).
  - injection H as <-. apply list_elem_of_here.
  - apply list_elem_of_further. now apply IH.
Qed.

(** ** The user expressions *)

Section expressions.
Variable k_B : R.
Variable call : Expression -> point -> R.

(** C6, as the code has it. With the same solubility parameters [(s0, es)]
    in every declared material, [s0] not zero, [T x > 0], the cell in a
    declared material and [c x] defined, the transformed value is the
    quotient [c x / S(T x)] with [S(T) = s0*exp(-es/(k_B*T))], and in exact
    arithmetic multiplying it by [S(T x)] gives [c x] back. *)
Theorem theta_round_trip (self : BoundaryConditionTheta.t) (x : point)
    (ufc_cell : nat) (s0 es c : R) :
  (0 < k_B)%R ->
  uniform_solubility (BoundaryConditionTheta._materials self) s0 es ->
  (0 < BoundaryConditionTheta._T self x)%R ->
  s0 <> 0%R ->
  is_Ok (find_material_from_id (BoundaryConditionTheta._materials self)
           (marker (BoundaryConditionTheta._vm self) ufc_cell)) ->
  call_value k_B call (BoundaryConditionTheta._bci self) x = Ok c ->
  let S_T := arrhenius_law k_B s0 es (BoundaryConditionTheta._T self x) in
  BoundaryConditionTheta.eval_cell k_B call self x ufc_cell = Ok (c / S_T)%R
  /\ (c / S_T * S_T)%R = c.
Proof.
  intros Hk Huni HT Hs0 [material Hmat] Hc S_T.
  unfold uniform_solubility in Huni. rewrite Forall_forall in Huni.
  pose proof (find_material_from_id_elem _ _ _ Hmat) as Hin.
  destruct (Huni _ Hin) as (v0 & ve & H0 & He & Hf0 & Hfe).
  split.
  - unfold BoundaryConditionTheta.eval_cell. rewrite Hmat. simpl.
    unfold getitem. rewrite H0, He. simpl. rewrite Hc. simpl.
    rewrite (arrhenius_Ok _ _ _ _ _ _ Hf0 Hfe) by lra. simpl.
    apply fdiv_Ok. now apply arrhenius_law_neq_0.
  - field. now apply arrhenius_law_neq_0.
Qed.

Lemma recomb_eval_instantaneous (self : BoundaryConditionRecomb.t)
    (x : point) :
  BoundaryConditionRecomb._K_0 self = VNone ->
  BoundaryConditionRecomb.eval k_B call self x
  = (D ← arrhenius k_B (BoundaryConditionRecomb._D_0 self)
           (BoundaryConditionRecomb._E_D self)
           (BoundaryConditionRecomb._T self x);
     fdiv (call (BoundaryConditionRecomb._phi self) x
           * call (BoundaryConditionRecomb._R_p self) x) D).
Proof.
  intros HK. unfold BoundaryConditionRecomb.eval. rewrite HK.
  destruct (arrhenius _ _ _ _) as [D |]; simpl; [| reflexivity].
  now destruct (fdiv _ D).
Qed.

Lemma recomb_eval_finite (self : BoundaryConditionRecomb.t) (x : point)
    (d0 ed k0 ek : R) :
  k_B <> 0%R -> BoundaryConditionRecomb._T self x <> 0%R ->
  to_float (BoundaryConditionRecomb._D_0 self) = Ok d0 ->
  to_float (BoundaryConditionRecomb._E_D self) = Ok ed ->
  d0 <> 0%R ->
  to_float (BoundaryConditionRecomb._K_0 self) = Ok k0 ->
  to_float (BoundaryConditionRecomb._E_K self) = Ok ek ->
  k0 <> 0%R ->
  let Tx := BoundaryConditionRecomb._T self x in
  let phi := call (BoundaryConditionRecomb._phi self) x in
  let R_p := call (BoundaryConditionRecomb._R_p self) x in
  (0 <= phi / arrhenius_law k_B k0 ek Tx)%R ->
  BoundaryConditionRecomb.eval k_B call self x
  = Ok (phi * R_p / arrhenius_law k_B d0 ed Tx
        + sqrt (phi / arrhenius_law k_B k0 ek Tx))%R.
Proof.
  intros Hk HT HD0 HED Hd0 HK0 HEK Hk0 Tx phi R_p Hpos.
  unfold BoundaryConditionRecomb.eval.
  rewrite (arrhenius_Ok _ _ _ _ _ _ HD0 HED Hk HT). simpl.
  rewrite fdiv_Ok by now apply arrhenius_law_neq_0. simpl.
  assert (BoundaryConditionRecomb._K_0 self <> VNone) as Hnone
    by (intros E; rewrite E in HK0; discriminate).
  destruct (BoundaryConditionRecomb._K_0 self) eqn:EK; try contradiction;
    try discriminate;
    (rewrite (arrhenius_Ok _ _ _ _ _ _ HK0 HEK Hk HT); simpl;
     rewrite fdiv_Ok by (now apply arrhenius_law_neq_0); simpl;
     fold Tx phi; rewrite (fsqrt_Ok _ Hpos); reflexivity).
Qed.

(** C4. The implantation-recombination value is [phi*R_p/D(T)] with
    [D(T) = D_0*exp(-E_D/(k_B*T))]; when [K_0] is [None] nothing is added,
    and when [K_0] is a number the term [sqrt(phi/K(T))] with
    [K(T) = K_0*exp(-E_K/(k_B*T))] is added. *)
Theorem recomb_value (self : BoundaryConditionRecomb.t) (x : point)
    (d0 ed : R) :
  (0 < k_B)%R -> BoundaryConditionRecomb._T self x <> 0%R ->
  to_float (BoundaryConditionRecomb._D_0 self) = Ok d0 ->
  to_float (BoundaryConditionRecomb._E_D self) = Ok ed ->
  d0 <> 0%R ->
  let Tx := BoundaryConditionRecomb._T self x in
  let phi := call (BoundaryConditionRecomb._phi self) x in
  let R_p := call (BoundaryConditionRecomb._R_p self) x in
  let D := arrhenius_law k_B d0 ed Tx in
  (BoundaryConditionRecomb._K_0 self = VNone ->
   BoundaryConditionRecomb.eval k_B call self x = Ok (phi * R_p / D)%R)
  /\ (forall k0 ek : R,
         to_float (BoundaryConditionRecomb._K_0 self) = Ok k0 ->
         to_float (BoundaryConditionRecomb._E_K self) = Ok ek ->
         k0 <> 0%R ->
         let K := arrhenius_law k_B k0 ek Tx in
         (0 <= phi / K)%R ->
         BoundaryConditionRecomb.eval k_B call self x
         = Ok (phi * R_p / D + sqrt (phi / K))%R).
Proof.
  intros Hk HT HD0 HED Hd0 Tx phi R_p D. split.
  - intros HK. rewrite (recomb_eval_instantaneous _ _ HK).
    rewrite (arrhenius_Ok _ _ _ _ _ _ HD0 HED) by (assumption || lra).
    simpl. apply fdiv_Ok. now apply arrhenius_law_neq_0.
  - intros k0 ek HK0 HEK Hk0 K Hpos.
    apply recomb_eval_finite; try assumption. lra.
Qed.


End expressions.

(** ** The builders *)

Lemma for_each_app {A St : Type} (body : St -> A -> result St)
    (l1 l2 : list A) (st : St) :
  for_each body (l1 ++ l2) st
  = (st' ← for_each body l1 st; for_each body l2 st').
Proof.
  revert st. induction l1 as [| a l1 IH]; intros st; simpl; [reflexivity |].
  destruct (body st a) as [st' |]; simpl; [apply IH | reflexivity].
Qed.

Lemma not_in_recognized (kind : string) :
  ~ In kind recognized ->
  py_eq (VStr kind) (VStr "dc") = false
  /\ py_eq (VStr kind) (VStr "solubility") = false
  /\ py_eq (VStr kind) (VStr "dc_imp") = false
  /\ py_eq (VStr kind) (VStr "flux") = false
  /\ py_eq (VStr kind) (VStr "recomb") = false.
Proof.
  intros H. simpl. rewrite !String.eqb_neq.
  repeat split; intros ->; apply H; vm_compute; tauto.
Qed.

Lemma py_in_dc (type_BC : pyval) :
  py_in type_BC (bc_types "dc")
  = py_eq type_BC (VStr "dc") || py_eq type_BC (VStr "solubility")
    || py_eq type_BC (VStr "dc_imp").
Proof.
  change (bc_types "dc") with ["dc"; "solubility"; "dc_imp"].
  unfold py_in. simpl. now rewrite orb_false_r, orb_assoc.
Qed.

Lemma build_value_extends (simulation : Simulation) (type_BC : pyval)
    (BC : gmap string pyval) (expressions expressions' : list expression)
    (value_BC : option value_expression) :
  build_value simulation type_BC BC expressions = Ok (value_BC, expressions') ->
  exists registered, expressions' = expressions ++ registered.
Proof.
  unfold build_value. intros H.
  destruct (py_eq type_BC (VStr "dc")).
  { apply bind_Ok_inv in H as (v & _ & H). injection H as _ <-.
    exists []. now rewrite app_nil_r. }
  destruct (py_eq type_BC (VStr "solubility")).
  { apply bind_Ok_inv in H as (v & _ & H).
    apply bind_Ok_inv in H as (s0 & _ & H).
    apply bind_Ok_inv in H as (es & _ & H). injection H as _ <-. eauto. }
  destruct (py_eq type_BC (VStr "dc_imp")).
  { apply bind_Ok_inv in H as (v & _ & H).
    apply bind_Ok_inv in H as (d & _ & H).
    apply bind_Ok_inv in H as (d0 & _ & H).
    apply bind_Ok_inv in H as (ed & _ & H).
    apply bind_Ok_inv in H as ([k0 ek] & _ & H). injection H as _ <-. eauto. }
  injection H as _ <-. exists []. now rewrite app_nil_r.
Qed.

Lemma build_value_essential (simulation : Simulation) (type_BC : pyval)
    (BC : gmap string pyval) (expressions expressions' : list expression) :
  py_in type_BC (bc_types "dc") = true ->
  build_value simulation type_BC BC expressions = Ok (None, expressions') ->
  False.
Proof.
  rewrite py_in_dc. unfold build_value. intros Hin H.
  destruct (py_eq type_BC (VStr "dc")).
  { apply bind_Ok_inv in H as (v & _ & H). discriminate. }
  destruct (py_eq type_BC (VStr "solubility")).
  { apply bind_Ok_inv in H as (v & _ & H).
    apply bind_Ok_inv in H as (s0 & _ & H).
    apply bind_Ok_inv in H as (es & _ & H). discriminate. }
  destruct (py_eq type_BC (VStr "dc_imp")); [| discriminate].
  apply bind_Ok_inv in H as (v & _ & H).
  apply bind_Ok_inv in H as (d & _ & H).
  apply bind_Ok_inv in H as (d0 & _ & H).
  apply bind_Ok_inv in H as (ed & _ & H).
  apply bind_Ok_inv in H as ([k0 ek] & _ & H). discriminate.
Qed.

(** What the loop body does with a condition of an essential kind whose
    value has been built. *)
Lemma apply_boundary_condition_essential (simulation : Simulation)
    (bcs : list DirichletBC) (expressions expressions1 : list expression)
    (BC : gmap string pyval) (type_BC : pyval) (v : value_expression) :
  BC !! "type" = Some type_BC ->
  py_in type_BC (bc_types "dc") = true ->
  build_value simulation type_BC BC expressions = Ok (Some v, expressions1) ->
  apply_boundary_condition simulation (bcs, expressions) BC
  = (surfaces ← getitem BC "surfaces";
     let value_BC :=
       if transformed simulation BC then theta_of simulation v else Value v in
     mret (bcs ++ (mkDirichletBC (funspace_of simulation BC) value_BC
                     (surface_markers simulation) <$> as_list surfaces),
           (if transformed simulation BC then expressions1 ++ [Value v]
            else expressions1) ++ [value_BC])).
Proof.
  intros Hty Hin Hval. unfold apply_boundary_condition.
  unfold has_key. rewrite Hty, (proj2 (getitem_Ok _ _ _) Hty).
  cbn [mbind result_bind]. rewrite Hval. cbn [mbind result_bind].
  rewrite Hin. rewrite !andb_false_r.
  fold (transformed simulation BC). fold (theta_of simulation v).
  fold (funspace_of simulation BC).
  now destruct (transformed simulation BC).
Qed.

Lemma apply_boundary_condition_essential_inv (simulation : Simulation)
    (bcs bcs' : list DirichletBC) (expressions expressions' : list expression)
    (BC : gmap string pyval) (type_BC : pyval) :
  BC !! "type" = Some type_BC ->
  py_in type_BC (bc_types "dc") = true ->
  apply_boundary_condition simulation (bcs, expressions) BC
  = Ok (bcs', expressions') ->
  exists v registered surfaces,
    build_value simulation type_BC BC expressions
    = Ok (Some v, expressions ++ registered)
    /\ BC !! "surfaces" = Some surfaces
    /\ let value_BC :=
         if transformed simulation BC then theta_of simulation v
         else Value v in
       bcs' = bcs ++ (mkDirichletBC (funspace_of simulation BC) value_BC
                        (surface_markers simulation) <$> as_list surfaces)
       /\ expressions'
          = (if transformed simulation BC
             then (expressions ++ registered) ++ [Value v]
             else expressions ++ registered) ++ [value_BC].
Proof.
  intros Hty Hin H.
  destruct (build_value simulation type_BC BC expressions)
    as [[[v |] expressions1] | e] eqn:Hval.
  - rewrite (apply_boundary_condition_essential _ _ _ _ _ _ _ Hty Hin Hval)
      in H.
    destruct (build_value_extends _ _ _ _ _ _ Hval) as [registered ->].
    apply bind_Ok_inv in H as (surfaces & Hs & H). apply getitem_Ok in Hs.
    injection H as <- <-. exists v, registered, surfaces. auto.
  - exfalso. eapply build_value_essential; eassumption.
  - exfalso. unfold apply_boundary_condition in H.
    unfold has_key in H. rewrite Hty, (proj2 (getitem_Ok _ _ _) Hty) in H.
    cbn [mbind result_bind] in H. rewrite Hval in H. discriminate.
Qed.

Lemma imposed_value (funspace : FunctionSpace) (value_BC : expression)
    (markers : MeshFunction) (surfaces : list pyval) :
  Forall (fun c => bc_value c = value_BC)
    (mkDirichletBC funspace value_BC markers <$> surfaces).
Proof.
  induction surfaces as [| s surfaces IH]; simpl; constructor;
    [reflexivity | exact IH].
Qed.

Lemma conservation_chemic_pot_spec (mats : list (gmap string pyval)) :
  conservation_chemic_pot mats = true
  <-> exists mat, mat ∈ mats /\ is_Some (mat !! "S_0").
Proof.
  unfold conservation_chemic_pot. rewrite existsb_exists. split.
  - intros (mat & Hin & Hk). exists mat. split.
    + now apply list_elem_of_In.
    + now apply has_key_is_Some.
  - intros (mat & Hin & Hk). exists mat. split.
    + now apply list_elem_of_In.
    + now apply has_key_is_Some.
Qed.

Lemma conservation_chemic_pot_fluxes_spec (simulation : Simulation) :
  conservation_chemic_pot_fluxes simulation = true
  <-> is_Some (S simulation)
      /\ exists mat, mat ∈ materials (parameters simulation)
                     /\ (is_Some (mat !! "S_0") \/ is_Some (mat !! "E_S")).
Proof.
  unfold conservation_chemic_pot_fluxes.
  destruct (S simulation) as [s |].
  - rewrite existsb_exists. split.
    + intros (mat & Hin & Hk). split; [eauto |]. exists mat. split.
      * now apply list_elem_of_In.
      * apply orb_true_iff in Hk. rewrite !has_key_is_Some in Hk. exact Hk.
    + intros (_ & mat & Hin & Hk). exists mat. split.
      * now apply list_elem_of_In.
      * apply orb_true_iff. rewrite !has_key_is_Some. exact Hk.
  - split; [discriminate |]. intros ([s Hs] & _). discriminate.
Qed.

Lemma py_eq_zero (component : pyval) :
  py_eq component (VInt 0) = true
  <-> component = VInt 0 \/ component = VFloat 0.
Proof.
  destruct component as [| z | r | s | s | l]; cbn [py_eq]; split;
    try discriminate; try (intros [H | H]; discriminate).
  - intros H. apply Z.eqb_eq in H. left. now f_equal.
  - intros [H | H]; [| discriminate]. injection H as ->. reflexivity.
  - destruct (Req_dec_T r (IZR 0)) as [-> | Hne]; [| discriminate].
    intros _. now right.
  - intros [H | H]; [discriminate |]. injection H as ->.
    destruct (Req_dec_T 0 (IZR 0)) as [_ | Hne]; [reflexivity |].
    now destruct Hne.
Qed.

Lemma component_of_zero (BC : gmap string pyval) :
  py_eq (component_of BC) (VInt 0) = true
  <-> BC !! "component" = None
      \/ BC !! "component" = Some (VInt 0)
      \/ BC !! "component" = Some (VFloat 0).
Proof.
  unfold component_of. destruct (BC !! "component") as [c |].
  - rewrite py_eq_zero. split.
    + intros [-> | ->]; auto.
    + intros [H | [H | H]]; [discriminate | |]; injection H as ->; auto.
  - split; [auto | reflexivity].
Qed.

(** C1, as the code has it. In the builder of the constraints the mode is
    on exactly when some declared material has the key [S_0] ([E_S] is not
    read), and the value of a condition of an essential kind is the
    transformed one exactly when that mode is on and the condition targets
    component 0: it has no key [component], or its [component] equals 0.
    In the builder of the flux terms the mode is on exactly when the
    solubility field [S] is set and some material has [S_0] or [E_S]. *)
Theorem chemical_potential_mode (simulation : Simulation)
    (bcs bcs' : list DirichletBC) (expressions expressions' : list expression)
    (BC : gmap string pyval) (type_BC : pyval) :
  BC !! "type" = Some type_BC ->
  py_in type_BC (bc_types "dc") = true ->
  apply_boundary_condition simulation (bcs, expressions) BC
  = Ok (bcs', expressions') ->
  let mats := materials (parameters simulation) in
  let some_S_0 := exists mat, mat ∈ mats /\ is_Some (mat !! "S_0") in
  let targets_solute :=
    BC !! "component" = None
    \/ BC !! "component" = Some (VInt 0)
    \/ BC !! "component" = Some (VFloat 0) in
  (conservation_chemic_pot mats = true <-> some_S_0)
  /\ (conservation_chemic_pot_fluxes simulation = true
      <-> is_Some (S simulation)
          /\ exists mat, mat ∈ mats
                         /\ (is_Some (mat !! "S_0") \/ is_Some (mat !! "E_S")))
  /\ exists value_BC new,
       bcs' = bcs ++ new
       /\ last expressions' = Some value_BC
       /\ Forall (fun c => bc_value c = value_BC) new
       /\ ((exists th, value_BC = Theta th) <-> some_S_0 /\ targets_solute).
Proof.
  intros Hty Hin H mats some_S_0 targets_solute.
  split; [apply conservation_chemic_pot_spec |].
  split; [apply conservation_chemic_pot_fluxes_spec |].
  destruct (apply_boundary_condition_essential_inv _ _ _ _ _ _ _ Hty Hin H)
    as (v & registered & surfaces & _ & _ & -> & ->).
  eexists _, _. split; [reflexivity |]. split; [apply last_snoc |].
  split; [apply imposed_value |].
  subst some_S_0 targets_solute.
  rewrite <- component_of_zero, <- conservation_chemic_pot_spec.
  unfold transformed. fold mats.
  destruct (py_eq (component_of BC) (VInt 0)),
    (conservation_chemic_pot mats); cbn [andb]; split;
    try (intros [th Hth]; discriminate); try (intros [? ?]; discriminate);
    try (intros _; split; reflexivity).
  intros _. eexists. reflexivity.
Qed.

(** C8. When the transform is applied to the value of a condition, the list
    of expressions receives the value as it was declared and then the
    transformed value, and every constraint of the condition imposes the
    transformed value. *)
Theorem transform_keeps_original (simulation : Simulation)
    (bcs bcs' : list DirichletBC) (expressions expressions' : list expression)
    (BC : gmap string pyval) (type_BC : pyval) :
  BC !! "type" = Some type_BC ->
  py_in type_BC (bc_types "dc") = true ->
  transformed simulation BC = true ->
  apply_boundary_condition simulation (bcs, expressions) BC
  = Ok (bcs', expressions') ->
  exists v registered new,
    build_value simulation type_BC BC expressions
    = Ok (Some v, expressions ++ registered)
    /\ expressions'
       = expressions ++ registered ++ [Value v; theta_of simulation v]
    /\ bcs' = bcs ++ new
    /\ length new = pairs_of (bc_types "dc") BC
    /\ Forall (fun c => bc_value c = theta_of simulation v) new
    /\ Forall (fun c => bc_value c <> Value v) new.
Proof.
  intros Hty Hin Htr H.
  destruct (apply_boundary_condition_essential_inv _ _ _ _ _ _ _ Hty Hin H)
    as (v & registered & surfaces & Hval & Hs & Hbcs & Hexprs).
  rewrite Htr in Hbcs, Hexprs.
  exists v, registered. eexists. split; [exact Hval |].
  split; [rewrite Hexprs, <- !app_assoc; reflexivity |].
  split; [exact Hbcs |]. split; [| split].
  - rewrite length_fmap. unfold pairs_of. now rewrite Hty, Hs, Hin.
  - apply imposed_value.
  - eapply Forall_impl; [apply imposed_value |].
    intros c Hc. simpl in Hc. rewrite Hc. discriminate.
Qed.

(** *** Surfaces *)

Lemma getitem_insert_eq (d : gmap string pyval) (key : string) (a : pyval) :
  getitem (<[key:=a]> d) key = Ok a.
Proof.
  unfold getitem. now rewrite lookup_insert_eq.
Qed.

Lemma getitem_insert_ne (d : gmap string pyval) (key key' : string)
    (a : pyval) :
  key <> key' -> getitem (<[key:=a]> d) key' = getitem d key'.
Proof.
  intros Hne. unfold getitem. now rewrite lookup_insert_ne.
Qed.

Lemma has_key_insert_ne (d : gmap string pyval) (key key' : string)
    (a : pyval) :
  key <> key' -> has_key (<[key:=a]> d) key' = has_key d key'.
Proof.
  intros Hne. unfold has_key. now rewrite lookup_insert_ne.
Qed.

Lemma build_value_insert_surfaces (simulation : Simulation) (type_BC a : pyval)
    (BC : gmap string pyval) (expressions : list expression) :
  build_value simulation type_BC (<["surfaces":=a]> BC) expressions
  = build_value simulation type_BC BC expressions.
Proof.
  unfold build_value.
  rewrite !getitem_insert_ne, !has_key_insert_ne by discriminate.
  reflexivity.
Qed.

Lemma component_of_insert_surfaces (BC : gmap string pyval) (a : pyval) :
  component_of (<["surfaces":=a]> BC) = component_of BC.
Proof.
  unfold component_of. now rewrite lookup_insert_ne by discriminate.
Qed.

(** The loop body sees the surfaces of a condition only through their
    normalised list. *)
Lemma apply_boundary_condition_surfaces (simulation : Simulation)
    (st : list DirichletBC * list expression) (BC : gmap string pyval)
    (a b : pyval) :
  as_list a = as_list b ->
  apply_boundary_condition simulation st (<["surfaces":=a]> BC)
  = apply_boundary_condition simulation st (<["surfaces":=b]> BC).
Proof.
  intros Hab. destruct st as [bcs expressions].
  unfold apply_boundary_condition.
  rewrite !(has_key_insert_ne _ "surfaces" "type"),
    !(getitem_insert_ne _ "surfaces" "type") by discriminate.
  destruct (if has_key BC "type" then getitem BC "type" else _)
    as [type_BC | e]; [| reflexivity].
  cbn [mbind result_bind]. rewrite !build_value_insert_surfaces.
  destruct (build_value simulation type_BC BC expressions)
    as [[value_BC expressions1] | e]; [| reflexivity].
  cbn [mbind result_bind].
  destruct (negb _ && negb _ && negb _); [reflexivity |].
  destruct (py_in type_BC (bc_types "dc")); [| reflexivity].
  destruct value_BC as [v |]; [| reflexivity].
  rewrite !component_of_insert_surfaces, !getitem_insert_eq.
  destruct (py_eq (component_of BC) (VInt 0) && _);
    cbn [mbind result_bind]; now rewrite Hab.
Qed.

Lemma define_dirichlet_bc_T_surfaces (simulation : Simulation)
    (st : list DirichletBC * list expression) (bc : gmap string pyval)
    (a b : pyval) :
  as_list a = as_list b ->
  define_dirichlet_bc_T simulation st (<["surfaces":=a]> bc)
  = define_dirichlet_bc_T simulation st (<["surfaces":=b]> bc).
Proof.
  intros Hab. destruct st as [bcs expressions].
  unfold define_dirichlet_bc_T.
  rewrite !(getitem_insert_ne _ "surfaces" "type"),
    !(getitem_insert_ne _ "surfaces" "value") by discriminate.
  destruct (getitem bc "type") as [type_bc | e]; [| reflexivity].
  cbn [mbind result_bind].
  destruct (py_eq type_bc (VStr "dc")); [| reflexivity].
  destruct (getitem bc "value") as [value | e]; [| reflexivity].
  cbn [mbind result_bind]. rewrite !getitem_insert_eq.
  cbn [mbind result_bind]. now rewrite Hab.
Qed.

Lemma for_each_middle {A St : Type} (body : St -> A -> result St)
    (pre post : list A) (a b : A) (st : St) :
  (forall st', body st' a = body st' b) ->
  for_each body (pre ++ a :: post) st = for_each body (pre ++ b :: post) st.
Proof.
  intros Hab. rewrite !for_each_app.
  destruct (for_each body pre st) as [st' | e]; [| reflexivity].
  cbn [mbind result_bind for_each]. now rewrite Hab.
Qed.

(** *** Counting the constraints *)

Lemma apply_boundary_condition_length (simulation : Simulation)
    (bcs bcs' : list DirichletBC) (expressions expressions' : list expression)
    (BC : gmap string pyval) :
  apply_boundary_condition simulation (bcs, expressions) BC
  = Ok (bcs', expressions') ->
  length bcs' = (length bcs + pairs_of (bc_types "dc") BC)%nat.
Proof.
  intros H. destruct (BC !! "type") as [type_BC |] eqn:Hty.
  - destruct (py_in type_BC (bc_types "dc")) eqn:Hin.
    + destruct (apply_boundary_condition_essential_inv _ _ _ _ _ _ _ Hty Hin H)
        as (v & registered & surfaces & _ & Hs & -> & _).
      rewrite length_app, length_fmap. unfold pairs_of.
      now rewrite Hty, Hs, Hin.
    + unfold pairs_of. rewrite Hty, Hin.
      assert (bcs' = bcs) as ->.
      { unfold apply_boundary_condition in H. unfold has_key in H.
        rewrite Hty, (proj2 (getitem_Ok _ _ _) Hty) in H.
        cbn [mbind result_bind] in H.
        destruct (build_value simulation type_BC BC expressions)
          as [[value_BC expressions1] | e]; [| discriminate].
        cbn [mbind result_bind] in H. rewrite Hin in H.
        destruct (negb _ && negb _ && negb false).
        - destruct (str_add unknown_type type_BC); discriminate.
        - now injection H as <- _. }
      destruct (BC !! "surfaces"); lia.
  - unfold apply_boundary_condition, has_key in H. rewrite Hty in H.
    discriminate.
Qed.

Lemma apply_boundary_conditions_length (simulation : Simulation)
    (l : list (gmap string pyval)) :
  forall (bcs bcs' : list DirichletBC) (expressions expressions' : list expression),
    for_each (apply_boundary_condition simulation) l (bcs, expressions)
    = Ok (bcs', expressions') ->
    length bcs' = (length bcs + pairs (bc_types "dc") l)%nat.
Proof.
  induction l as [| BC l IH]; intros bcs bcs' expressions expressions' H.
  - injection H as <- _. simpl. lia.
  - simpl in H. apply bind_Ok_inv in H as ([bcs1 expressions1] & H1 & H).
    apply apply_boundary_condition_length in H1. apply IH in H.
    simpl. lia.
Qed.

Lemma define_dirichlet_bc_T_length (simulation : Simulation)
    (bcs bcs' : list DirichletBC) (expressions expressions' : list expression)
    (bc : gmap string pyval) :
  define_dirichlet_bc_T simulation (bcs, expressions) bc
  = Ok (bcs', expressions') ->
  length bcs' = (length bcs + pairs_of ["dc"] bc)%nat.
Proof.
  unfold define_dirichlet_bc_T. intros H.
  apply bind_Ok_inv in H as (type_bc & Hty & H). apply getitem_Ok in Hty.
  unfold pairs_of. rewrite Hty. unfold py_in, existsb. rewrite orb_false_r.
  destruct (py_eq type_bc (VStr "dc")).
  - apply bind_Ok_inv in H as (value & _ & H).
    apply bind_Ok_inv in H as (surfaces & Hs & H). apply getitem_Ok in Hs.
    injection H as <- _. rewrite Hs, length_app, length_fmap. reflexivity.
  - injection H as <- _. destruct (bc !! "surfaces"); lia.
Qed.

Lemma define_dirichlet_bcs_T_length (simulation : Simulation)
    (l : list (gmap string pyval)) :
  forall (bcs bcs' : list DirichletBC) (expressions expressions' : list expression),
    for_each (define_dirichlet_bc_T simulation) l (bcs, expressions)
    = Ok (bcs', expressions') ->
    length bcs' = (length bcs + pairs ["dc"] l)%nat.
Proof.
  induction l as [| bc l IH]; intros bcs bcs' expressions expressions' H.
  - injection H as <- _. simpl. lia.
  - simpl in H. apply bind_Ok_inv in H as ([bcs1 expressions1] & H1 & H).
    apply define_dirichlet_bc_T_length in H1. apply IH in H.
    simpl. lia.
Qed.

(** *** Unknown kinds *)

Lemma py_in_recognized (kind category : string) :
  ~ In kind recognized ->
  py_in (VStr kind) (bc_types category) = false.
Proof.
  intros Hnot. destruct (py_in (VStr kind) (bc_types category)) eqn:Hin;
    [| reflexivity].
  exfalso. apply Hnot. apply py_in_str in Hin. unfold recognized.
  unfold bc_types in Hin.
  destruct (String.eqb category "dc"); [apply in_or_app; now left |].
  destruct (String.eqb category "neumann");
    [apply in_or_app; right; apply in_or_app; now left |].
  destruct (String.eqb category "robin");
    [apply in_or_app; right; apply in_or_app; now right |].
  destruct Hin.
Qed.

Lemma build_value_unknown (simulation : Simulation) (kind : string)
    (BC : gmap string pyval) (expressions : list expression) :
  ~ In kind recognized ->
  build_value simulation (VStr kind) BC expressions = Ok (None, expressions).
Proof.
  intros Hnot.
  destruct (not_in_recognized kind Hnot) as (H1 & H2 & H3 & _).
  unfold build_value. now rewrite H1, H2, H3.
Qed.

Lemma apply_boundary_condition_unknown (simulation : Simulation)
    (st : list DirichletBC * list expression) (BC : gmap string pyval)
    (kind : string) :
  BC !! "type" = Some (VStr kind) ->
  ~ In kind recognized ->
  apply_boundary_condition simulation st BC
  = Raise (NameError ("Unknown boundary condition type : " ++ kind)%string).
Proof.
  intros Hty Hnot. destruct st as [bcs expressions].
  unfold apply_boundary_condition, has_key.
  rewrite Hty, (proj2 (getitem_Ok _ _ _) Hty). cbn [mbind result_bind].
  rewrite (build_value_unknown _ _ _ _ Hnot). cbn [mbind result_bind].
  rewrite !(py_in_recognized _ _ Hnot). reflexivity.
Qed.

Lemma apply_flux_unknown (k_B : R) (simulation : Simulation)
    (st : list flux_term * list expression) (bc : gmap string pyval)
    (kind : string) :
  bc !! "type" = Some (VStr kind) ->
  ~ In kind recognized ->
  apply_flux k_B simulation st bc
  = Raise (NameError ("Unknown boundary condition type : " ++ kind)%string).
Proof.
  intros Hty Hnot. destruct st as [F expressions].
  unfold apply_flux. rewrite (proj2 (getitem_Ok _ _ _) Hty).
  cbn [mbind result_bind]. rewrite !(py_in_recognized _ _ Hnot). reflexivity.
Qed.

Lemma define_dirichlet_bc_T_skips (simulation : Simulation)
    (st : list DirichletBC * list expression) (bc : gmap string pyval)
    (type_bc : pyval) :
  bc !! "type" = Some type_bc ->
  py_eq type_bc (VStr "dc") = false ->
  define_dirichlet_bc_T simulation st bc = Ok st.
Proof.
  intros Hty Hne. destruct st as [bcs expressions].
  unfold define_dirichlet_bc_T. rewrite (proj2 (getitem_Ok _ _ _) Hty).
  cbn [mbind result_bind]. now rewrite Hne.
Qed.

(** C3, as the code has it. In the builder of the concentration constraints,
    when the conditions before it are assembled without error, a condition
    whose kind is a string outside the recognised set makes the whole call
    raise [NameError] with a message that ends with the kind, so no
    constraint is returned; the builder of the flux terms raises the same
    error on that condition; the builder of the temperature constraints
    passes over every condition whose kind is not "dc", this one among
    them, and leaves its lists as they were. *)
Theorem unknown_kind_raises (simulation : Simulation)
    (pre post : list (gmap string pyval)) (BC : gmap string pyval)
    (kind : string) (st : list DirichletBC * list expression) :
  boundary_conditions (parameters simulation) = pre ++ BC :: post ->
  for_each (apply_boundary_condition simulation) pre ([], []) = Ok st ->
  BC !! "type" = Some (VStr kind) ->
  ~ In kind recognized ->
  apply_boundary_conditions simulation
  = Raise (NameError ("Unknown boundary condition type : " ++ kind)%string)
  /\ (forall k_B F,
         apply_flux k_B simulation F BC
         = Raise (NameError
                    ("Unknown boundary condition type : " ++ kind)%string))
  /\ (forall st', define_dirichlet_bc_T simulation st' BC = Ok st')
  /\ (forall (bc : gmap string pyval) (type_bc : pyval) st',
         bc !! "type" = Some type_bc ->
         type_bc <> VStr "dc" ->
         define_dirichlet_bc_T simulation st' bc = Ok st').
Proof.
  intros Hl Hpre Hty Hnot.
  assert (forall (bc : gmap string pyval) (type_bc : pyval) st',
             bc !! "type" = Some type_bc ->
             type_bc <> VStr "dc" ->
             define_dirichlet_bc_T simulation st' bc = Ok st') as Hskip.
  { intros bc type_bc st' Hbc Hne.
    apply (define_dirichlet_bc_T_skips _ _ _ _ Hbc).
    destruct (py_eq type_bc (VStr "dc")) eqn:E; [| reflexivity].
    apply py_eq_str in E. contradiction. }
  split; [| split; [| split]].
  - unfold apply_boundary_conditions. rewrite Hl, for_each_app, Hpre.
    cbn [mbind result_bind for_each].
    now rewrite (apply_boundary_condition_unknown _ _ _ _ Hty Hnot).
  - intros k_B F. now apply apply_flux_unknown.
  - intros st'. apply (Hskip BC (VStr kind) st' Hty).
    intros E. injection E as ->. apply Hnot. vm_compute. tauto.
  - exact Hskip.
Qed.

(** *** Implantation with one recombination key *)

(** C10. An implantation-recombination condition that supplies only one of
    the keys [K_0] and [E_K] is assembled without error, with both
    parameters of the value set to [None]; the value then evaluates to
    [phi*R_p/D] with no recombination term. *)
Theorem partial_recombination_keys (simulation : Simulation)
    (bcs : list DirichletBC) (expressions : list expression)
    (BC : gmap string pyval)
    (implanted_flux implantation_depth D_0 E_D surfaces : pyval) :
  BC !! "type" = Some (VStr "dc_imp") ->
  BC !! "implanted_flux" = Some implanted_flux ->
  BC !! "implantation_depth" = Some implantation_depth ->
  BC !! "D_0" = Some D_0 ->
  BC !! "E_D" = Some E_D ->
  BC !! "surfaces" = Some surfaces ->
  has_key BC "K_0" = negb (has_key BC "E_K") ->
  let phi := mkExpression implanted_flux 0 1 in
  let R_p := mkExpression implantation_depth 0 1 in
  let r := BoundaryConditionRecomb.__init__ phi R_p VNone VNone D_0 E_D
             (T simulation) in
  let value_BC :=
    if transformed simulation BC then theta_of simulation (Recomb r)
    else Value (Recomb r) in
  apply_boundary_condition simulation (bcs, expressions) BC
  = Ok (bcs ++ (mkDirichletBC (funspace_of simulation BC) value_BC
                  (surface_markers simulation) <$> as_list surfaces),
        (if transformed simulation BC
         then (expressions ++ [Value (Expr phi); Value (Expr R_p)])
              ++ [Value (Recomb r)]
         else expressions ++ [Value (Expr phi); Value (Expr R_p)])
        ++ [value_BC])
  /\ forall k_B call x,
       BoundaryConditionRecomb.eval k_B call r x
       = (D ← arrhenius k_B D_0 E_D (T simulation x);
          fdiv (call phi x * call R_p x) D).
Proof.
  intros Hty Hphi HRp HD0 HED Hs Hkeys phi R_p r value_BC. split.
  - assert (build_value simulation (VStr "dc_imp") BC expressions
            = Ok (Some (Recomb r),
                  expressions ++ [Value (Expr phi); Value (Expr R_p)]))
      as Hval.
    { unfold build_value. simpl py_eq. cbn iota.
      rewrite (proj2 (getitem_Ok _ _ _) Hphi), (proj2 (getitem_Ok _ _ _) HRp),
        (proj2 (getitem_Ok _ _ _) HD0), (proj2 (getitem_Ok _ _ _) HED).
      cbn [mbind result_bind]. rewrite Hkeys.
      now destruct (has_key BC "E_K"). }
    rewrite (apply_boundary_condition_essential _ _ _ _ _ _ _ Hty eq_refl Hval).
    rewrite (proj2 (getitem_Ok _ _ _) Hs). reflexivity.
  - intros k_B call x. now apply recomb_eval_instantaneous.
Qed.

(** ** The properties on the sample inputs *)

(** C3 fails as stated: the builder of the temperature constraints receives
    a list whose only condition has the kind "bogus", outside the recognised
    set, and returns empty lists without raising. *)
Lemma thermal_unknown_kind_skipped :
  bogus_condition !! "type" = Some (VStr "bogus")
  /\ ~ In "bogus" recognized
  /\ define_dirichlet_bcs_T (sample_simulation [] [] [bogus_condition])
     = Ok ([], []).
Proof.
  split; [reflexivity |]. split; [| reflexivity].
  vm_compute. intuition discriminate.
Qed.

Lemma mass_flux_interface_law_witness :
  (0 < 1)%R /\ (0 < 300)%R /\ MassFlux.S_0 sievert_mass_flux <> 0%R
  /\ exists c_interface form,
       MassFlux.c_interface_liquid 1 sievert_mass_flux
         (fun _ => 300%R) (fun _ => 1%R) = Ok c_interface
       /\ c_interface []
          = ((1 / arrhenius_law 1 1 0 300) ^ 1 * arrhenius_law 1 1 0 300)%R
       /\ MassFlux.create_form 1 sample_call sievert_mass_flux
            (fun _ => 300%R) (fun _ => 1%R)
          = Ok (form, [mkExpression (VFloat 1) 0 1; mkExpression (VFloat 0) 0 1])
       /\ form []
          = (- sample_call (mkExpression (VFloat 1) 0 1) []
             * (c_interface []
                - sample_call (mkExpression (VFloat 0) 0 1) []))%R.
Proof.
  assert (MassFlux.S_0 sievert_mass_flux <> 0%R) as HS by (simpl; lra).
  split; [lra |]. split; [lra |]. split; [exact HS |].
  apply (mass_flux_interface_law 1 sample_call sievert_mass_flux
           (fun _ => 300%R) (fun _ => 1%R) []); [lra | lra | exact HS |].
  left. split; reflexivity.
Defined.

(** C6 fails as stated: in double precision, with [S_0 = 49], [E_S = 0],
    [T(x) = 300] and [c(x) = 1], the solubility is 49, the transformed value
    is [1/49], and their product is not 1. *)
Lemma theta_round_trip_rounds :
  PrimFloat.ltb 0 300 = true
  /\ Double.arrhenius Double.k_B 49 0 300 = Some 49%float
  /\ Double.eval_cell Double.k_B 1 49 0 300 = Some (1 / 49)%float
  /\ PrimFloat.eqb (1 / 49 * 49) 1 = false.
Proof.
  repeat split; reflexivity.
Qed.

Lemma theta_round_trip_witness :
  (0 < 1)%R
  /\ uniform_solubility [tungsten] 2 0
  /\ (0 < 300)%R
  /\ 2%R <> 0%R
  /\ is_Ok (find_material_from_id [tungsten] 1)
  /\ call_value 1 sample_call (Expr (mkExpression (VSym "1 + t") 0 4)) []
     = Ok 1%R
  /\ BoundaryConditionTheta.eval_cell 1 sample_call sample_theta [] 0
     = Ok (1 / arrhenius_law 1 2 0 300)%R
  /\ (1 / arrhenius_law 1 2 0 300 * arrhenius_law 1 2 0 300)%R = 1%R.
Proof.
  assert (uniform_solubility [tungsten] 2 0) as Huni.
  { constructor; [| constructor].
    exists (VFloat 2), (VFloat 0). repeat split; reflexivity. }
  assert (is_Ok (find_material_from_id [tungsten] 1)) as Hmat
    by (eexists; reflexivity).
  split; [lra |]. split; [exact Huni |]. split; [lra |]. split; [lra |].
  split; [exact Hmat |]. split; [reflexivity |].
  apply (theta_round_trip 1 sample_call sample_theta [] 0 2 0 1);
    [lra | exact Huni | simpl; lra | lra | exact Hmat | reflexivity].
Defined.

Lemma recomb_value_witness :
  (0 < 1)%R /\ 300%R <> 0%R
  /\ to_float (VFloat 1) = Ok 1%R /\ to_float (VFloat 0) = Ok 0%R
  /\ 1%R <> 0%R
  /\ BoundaryConditionRecomb.eval 1 sample_call sample_recomb []
     = Ok (1 * 1 / arrhenius_law 1 1 0 300
           + sqrt (1 / arrhenius_law 1 1 0 300))%R.
Proof.
  split; [lra |]. split; [lra |]. split; [reflexivity |].
  split; [reflexivity |]. split; [lra |].
  apply (recomb_value 1 sample_call sample_recomb [] 1 0);
    try reflexivity; try (simpl; lra).
  apply Rlt_le, Rdiv_lt_0_compat; [unfold sample_call; lra |].
  apply arrhenius_law_pos. lra.
Defined.



(** C1 fails as stated: the only material defines [E_S] and not [S_0], the
    solubility field is set, and the condition names no component; the mode
    of the builder of the flux terms is on, yet the mode of the builder of
    the constraints is off and the value it imposes is not transformed. *)
Lemma solubility_modes_differ :
  is_Some (activation_only !! "E_S")
  /\ activation_only !! "S_0" = None
  /\ is_Some (S activation_simulation)
  /\ fixed_value !! "component" = None
  /\ conservation_chemic_pot_fluxes activation_simulation = true
  /\ conservation_chemic_pot (materials (parameters activation_simulation))
     = false
  /\ apply_boundary_condition activation_simulation ([], []) fixed_value
     = Ok ([mkDirichletBC (V activation_simulation)
              (Value (Expr (mkExpression (VSym "1 + t") 0 4)))
              (surface_markers activation_simulation) (VInt 1);
            mkDirichletBC (V activation_simulation)
              (Value (Expr (mkExpression (VSym "1 + t") 0 4)))
              (surface_markers activation_simulation) (VInt 2)],
           [Value (Expr (mkExpression (VSym "1 + t") 0 4))]).
Proof.
  split; [eexists; reflexivity |]. split; [reflexivity |].
  split; [eexists; reflexivity |]. repeat split; reflexivity.
Qed.

Lemma chemical_potential_mode_witness :
  fixed_value !! "type" = Some (VStr "dc")
  /\ component_one !! "type" = Some (VStr "dc")
  /\ py_in (VStr "dc") (bc_types "dc") = true
  /\ apply_boundary_condition transform_simulation ([], []) fixed_value
     = Ok transform_outcome
  /\ apply_boundary_condition transform_simulation ([], []) component_one
     = Ok component_one_outcome
  /\ fixed_value !! "component" = None
  /\ component_one !! "component" = Some (VInt 1)
  /\ (exists value_BC,
         last transform_outcome.2 = Some value_BC
         /\ exists th, value_BC = Theta th)
  /\ (exists value_BC,
         last component_one_outcome.2 = Some value_BC
         /\ ~ exists th, value_BC = Theta th).
Proof.
  repeat (split; [reflexivity |]).
  destruct (chemical_potential_mode transform_simulation []
              transform_outcome.1 [] transform_outcome.2 fixed_value
              (VStr "dc") eq_refl eq_refl eq_refl)
    as (_ & _ & value_BC & new & _ & Hlast & _ & Hwrapped).
  destruct (chemical_potential_mode transform_simulation []
              component_one_outcome.1 [] component_one_outcome.2
              component_one (VStr "dc") eq_refl eq_refl eq_refl)
    as (_ & _ & value_BC' & new' & _ & Hlast' & _ & Hplain).
  split.
  - exists value_BC. split; [exact Hlast |]. apply Hwrapped. split.
    + exists tungsten. split; [apply list_elem_of_here | eexists; reflexivity].
    + left. reflexivity.
  - exists value_BC'. split; [exact Hlast' |]. intros Hth.
    apply Hplain in Hth as [_ [Hc | [Hc | Hc]]]; discriminate.
Defined.

Lemma transform_keeps_original_witness :
  fixed_value !! "type" = Some (VStr "dc")
  /\ py_in (VStr "dc") (bc_types "dc") = true
  /\ transformed transform_simulation fixed_value = true
  /\ apply_boundary_condition transform_simulation ([], []) fixed_value
     = Ok transform_outcome
  /\ exists v registered new,
       build_value transform_simulation (VStr "dc") fixed_value []
       = Ok (Some v, [] ++ registered)
       /\ transform_outcome.2
          = [] ++ registered ++ [Value v; theta_of transform_simulation v]
       /\ transform_outcome.1 = [] ++ new
       /\ length new = pairs_of (bc_types "dc") fixed_value
       /\ Forall (fun c => bc_value c = theta_of transform_simulation v) new
       /\ Forall (fun c => bc_value c <> Value v) new.
Proof.
  split; [reflexivity |]. split; [reflexivity |]. split; [reflexivity |].
  split; [reflexivity |].
  apply (transform_keeps_original transform_simulation []
           transform_outcome.1 [] transform_outcome.2 fixed_value
           (VStr "dc")); reflexivity.
Defined.

Lemma unknown_kind_raises_witness :
  boundary_conditions (parameters bogus_simulation)
  = [fixed_value] ++ bogus_condition :: []
  /\ for_each (apply_boundary_condition bogus_simulation) [fixed_value]
       ([], [])
     = Ok transform_outcome
  /\ bogus_condition !! "type" = Some (VStr "bogus")
  /\ ~ In "bogus" recognized
  /\ apply_boundary_conditions bogus_simulation
     = Raise (NameError "Unknown boundary condition type : bogus").
Proof.
  assert (~ In "bogus" recognized) as Hnot
    by (vm_compute; intuition discriminate).
  split; [reflexivity |]. split; [reflexivity |]. split; [reflexivity |].
  split; [exact Hnot |].
  apply (unknown_kind_raises bogus_simulation [fixed_value] []
           bogus_condition "bogus" transform_outcome
           eq_refl eq_refl eq_refl Hnot).
Defined.

Lemma partial_recombination_keys_witness :
  implantation_one_key !! "type" = Some (VStr "dc_imp")
  /\ implantation_one_key !! "implanted_flux" = Some (VSym "1e18")
  /\ implantation_one_key !! "implantation_depth" = Some (VSym "1e-9")
  /\ implantation_one_key !! "D_0" = Some (VFloat 1)
  /\ implantation_one_key !! "E_D" = Some (VFloat 0)
  /\ implantation_one_key !! "surfaces" = Some (VInt 1)
  /\ has_key implantation_one_key "K_0"
     = negb (has_key implantation_one_key "E_K")
  /\ is_Ok (apply_boundary_condition implantation_simulation ([], [])
              implantation_one_key)
  /\ forall k_B call x,
       BoundaryConditionRecomb.eval k_B call instantaneous_recomb x
       = (D ← arrhenius k_B (VFloat 1) (VFloat 0)
                (T implantation_simulation x);
          fdiv (call (mkExpression (VSym "1e18") 0 1) x
                * call (mkExpression (VSym "1e-9") 0 1) x) D).
Proof.
  repeat (split; [reflexivity |]).
  destruct (partial_recombination_keys implantation_simulation [] []
              implantation_one_key
              (VSym "1e18") (VSym "1e-9") (VFloat 1) (VFloat 0) (VInt 1)
              eq_refl eq_refl eq_refl eq_refl eq_refl eq_refl eq_refl)
    as [Hstep Heval].
  split; [eexists; exact Hstep | exact Heval].
Defined.

(** The sample list with the bare surface id 3 is assembled into one
    constraint. *)
Example bare_surface_assembled :
  length (outcome (apply_boundary_conditions
                     (sample_simulation
                        [<["surfaces":=VInt 3]> fixed_value] [tungsten] []))).1
  = 1%nat
  /\ is_Ok (apply_boundary_conditions
              (sample_simulation
                 [<["surfaces":=VInt 3]> fixed_value] [tungsten] [])).
Proof.
  split; [reflexivity |]. eexists. reflexivity.
Qed.

(** * Further properties of the code *)

(** ** The user expressions *)

Section more_expressions.
Variable k_B : R.
Variable call : Expression -> point -> R.

Lemma getitem_None (d : gmap string pyval) (key : string) :
  d !! key = None -> getitem d key = Raise (KeyError key).
Proof.
  intros H. unfold getitem. now rewrite H.
Qed.

Lemma solubility_eval_Ok (self : BoundaryConditionSolubility.t) (x : point)
    (s0 es : R) :
  k_B <> 0%R -> BoundaryConditionSolubility._T self x <> 0%R ->
  to_float (BoundaryConditionSolubility._S_0 self) = Ok s0 ->
  to_float (BoundaryConditionSolubility._E_S self) = Ok es ->
  (0 <= call (BoundaryConditionSolubility._pressure self) x)%R ->
  BoundaryConditionSolubility.eval k_B call self x
  = Ok (arrhenius_law k_B s0 es (BoundaryConditionSolubility._T self x)
        * sqrt (call (BoundaryConditionSolubility._pressure self) x))%R.
Proof.
  intros Hk HT HS0 HES Hp. unfold BoundaryConditionSolubility.eval.
  rewrite (arrhenius_Ok _ _ _ _ _ _ HS0 HES Hk HT). cbn [mbind result_bind].
  rewrite (fsqrt_Ok _ Hp). reflexivity.
Qed.

(** X1. Where the pressure is not negative and [T x] is not zero, the
    solubility value is [S(T) * sqrt(pressure)] with
    [S(T) = S_0*exp(-E_S/(k_B*T))]. *)
Theorem solubility_value (self : BoundaryConditionSolubility.t)
    (x : point) (s0 es : R) :
  (0 < k_B)%R -> BoundaryConditionSolubility._T self x <> 0%R ->
  to_float (BoundaryConditionSolubility._S_0 self) = Ok s0 ->
  to_float (BoundaryConditionSolubility._E_S self) = Ok es ->
  (0 <= call (BoundaryConditionSolubility._pressure self) x)%R ->
  let S_T := arrhenius_law k_B s0 es (BoundaryConditionSolubility._T self x) in
  let p := call (BoundaryConditionSolubility._pressure self) x in
  BoundaryConditionSolubility.eval k_B call self x = Ok (S_T * sqrt p)%R.
Proof.
  intros Hk HT HS0 HES Hp S_T p.
  apply solubility_eval_Ok; try assumption. lra.
Qed.



(** X4. A value built with a [K_0] and with [None] for [E_K] cannot be
    evaluated: where the diffusion part is defined, [eval] raises
    [TypeError]. *)
Theorem recomb_K_0_without_E_K (self : BoundaryConditionRecomb.t)
    (x : point) (d0 ed : R) :
  (0 < k_B)%R -> BoundaryConditionRecomb._T self x <> 0%R ->
  to_float (BoundaryConditionRecomb._D_0 self) = Ok d0 ->
  to_float (BoundaryConditionRecomb._E_D self) = Ok ed ->
  d0 <> 0%R ->
  BoundaryConditionRecomb._K_0 self <> VNone ->
  BoundaryConditionRecomb._E_K self = VNone ->
  BoundaryConditionRecomb.eval k_B call self x = Raise TypeError.
Proof.
  intros Hk HT HD0 HED Hd0 HK HEK. unfold BoundaryConditionRecomb.eval.
  rewrite (arrhenius_Ok _ _ _ _ _ _ HD0 HED) by (assumption || lra).
  cbn [mbind result_bind].
  rewrite fdiv_Ok by now apply arrhenius_law_neq_0.
  cbn [mbind result_bind].
  destruct (BoundaryConditionRecomb._K_0 self); try contradiction;
    unfold arrhenius; rewrite HEK; reflexivity.
Qed.

(** X5. When the material of the cell has no [S_0], the transformed value
    cannot be evaluated in that cell: [eval_cell] raises [KeyError] for
    [S_0], whatever the other materials define. *)
Theorem theta_needs_cell_solubility (self : BoundaryConditionTheta.t)
    (material : gmap string pyval) (x : point) (ufc_cell : nat) :
  find_material_from_id (BoundaryConditionTheta._materials self)
    (marker (BoundaryConditionTheta._vm self) ufc_cell) = Ok material ->
  material !! "S_0" = None ->
  BoundaryConditionTheta.eval_cell k_B call self x ufc_cell
  = Raise (KeyError "S_0").
Proof.
  intros Hmat H0. unfold BoundaryConditionTheta.eval_cell. rewrite Hmat.
  cbn [mbind result_bind]. now rewrite (getitem_None _ _ H0).
Qed.

(** X6. Scaling the solute concentration by [a] scales the interface
    concentration by [a] under the tag "sievert" and by [a^2] under the tag
    "henry". *)
Theorem interface_law_homogeneous (self : MassFlux.t)
    (T solute c_interface : point -> R) (a : R) :
  MassFlux.c_interface_liquid k_B self T solute = Ok c_interface ->
  exists scaled,
    MassFlux.c_interface_liquid k_B self T (fun x => a * solute x)%R
    = Ok scaled
    /\ forall x,
         scaled x
         = ((if py_eq (MassFlux.solubility_law self) (VStr "sievert")
             then a else a ^ 2) * c_interface x)%R.
Proof.
  unfold MassFlux.c_interface_liquid, MassFlux.quotient_by_S. intros H.
  destruct (py_eq (MassFlux.solubility_law self) (VStr "sievert")).
  - destruct (Req_dec_T (MassFlux.S_0 self) 0); [discriminate |].
    injection H as <-. eexists. split; [reflexivity |].
    intros x. cbv beta. unfold Rdiv. ring.
  - destruct (py_eq (MassFlux.solubility_law self) (VStr "henry"));
      [| discriminate].
    destruct (Req_dec_T (MassFlux.S_0 self) 0); [discriminate |].
    injection H as <-. eexists. split; [reflexivity |].
    intros x. cbv beta. unfold Rdiv. ring.
Qed.

End more_expressions.

(** ** The builders, one condition after the other *)

Lemma build_value_shift (simulation : Simulation) (type_BC : pyval)
    (BC : gmap string pyval) (expressions : list expression) :
  build_value simulation type_BC BC expressions
  = ('(value_BC, registered) ← build_value simulation type_BC BC [];
     mret (value_BC, expressions ++ registered)).
Proof.
  unfold build_value.
  destruct (py_eq type_BC (VStr "dc")).
  { destruct (getitem BC "value"); cbn [mbind result_bind mret result_ret];
      [now rewrite app_nil_r | reflexivity]. }
  destruct (py_eq type_BC (VStr "solubility")).
  { destruct (getitem BC "pressure"); [| reflexivity].
    cbn [mbind result_bind].
    destruct (getitem BC "S_0"); [| reflexivity]. cbn [mbind result_bind].
    destruct (getitem BC "E_S"); reflexivity. }
  destruct (py_eq type_BC (VStr "dc_imp")).
  { destruct (getitem BC "implanted_flux"); [| reflexivity].
    cbn [mbind result_bind].
    destruct (getitem BC "implantation_depth"); [| reflexivity].
    cbn [mbind result_bind].
    destruct (getitem BC "D_0"); [| reflexivity]. cbn [mbind result_bind].
    destruct (getitem BC "E_D"); [| reflexivity]. cbn [mbind result_bind].
    destruct (has_key BC "K_0" && has_key BC "E_K").
    - destruct (getitem BC "K_0"); [| reflexivity]. cbn [mbind result_bind].
      destruct (getitem BC "E_K"); reflexivity.
    - reflexivity. }
  cbn [mbind result_bind mret result_ret]. now rewrite app_nil_r.
Qed.

Lemma apply_boundary_condition_shift (simulation : Simulation)
    (bcs : list DirichletBC) (expressions : list expression)
    (BC : gmap string pyval) :
  apply_boundary_condition simulation (bcs, expressions) BC
  = ('(new, registered) ← apply_boundary_condition simulation ([], []) BC;
     mret (bcs ++ new, expressions ++ registered)).
Proof.
  unfold apply_boundary_condition.
  destruct (if has_key BC "type" then getitem BC "type" else _)
    as [type_BC | e]; [| reflexivity].
  cbn [mbind result_bind].
  rewrite (build_value_shift simulation type_BC BC expressions).
  destruct (build_value simulation type_BC BC [])
    as [[value_BC registered] | e]; [| reflexivity].
  cbn [mbind result_bind mret result_ret].
  destruct (negb _ && negb _ && negb _).
  { destruct (str_add unknown_type type_BC); reflexivity. }
  destruct (py_in type_BC (bc_types "dc")).
  - destruct value_BC as [v |]; [| reflexivity].
    destruct (getitem BC "surfaces") as [surfaces | e];
      destruct (py_eq (component_of BC) (VInt 0) && _);
      cbn [mbind result_bind mret result_ret app];
      rewrite <- ?app_assoc; reflexivity.
  - cbn [mbind result_bind mret result_ret app]. now rewrite !app_nil_r.
Qed.

Lemma define_dirichlet_bc_T_shift (simulation : Simulation)
    (bcs : list DirichletBC) (expressions : list expression)
    (bc : gmap string pyval) :
  define_dirichlet_bc_T simulation (bcs, expressions) bc
  = ('(new, registered) ← define_dirichlet_bc_T simulation ([], []) bc;
     mret (bcs ++ new, expressions ++ registered)).
Proof.
  unfold define_dirichlet_bc_T.
  destruct (getitem bc "type") as [type_bc | e]; [| reflexivity].
  cbn [mbind result_bind].
  destruct (py_eq type_bc (VStr "dc")).
  - destruct (getitem bc "value") as [value | e]; [| reflexivity].
    cbn [mbind result_bind].
    destruct (getitem bc "surfaces") as [surfaces | e]; reflexivity.
  - cbn [mbind result_bind mret result_ret]. now rewrite !app_nil_r.
Qed.

(** A loop whose body only appends to its two lists can be run from empty
    lists. *)
Lemma for_each_shift {A B C : Type}
    (body : list B * list C -> A -> result (list B * list C)) :
  (forall bs cs a,
      body (bs, cs) a
      = ('(new, registered) ← body ([], []) a;
         mret (bs ++ new, cs ++ registered))) ->
  forall (l : list A) (bs : list B) (cs : list C),
    for_each body l (bs, cs)
    = ('(new, registered) ← for_each body l ([], []);
       mret (bs ++ new, cs ++ registered)).
Proof.
  intros Hbody. induction l as [| a l IH]; intros bs cs.
  - cbn [for_each mbind result_bind mret result_ret]. now rewrite !app_nil_r.
  - cbn [for_each]. rewrite (Hbody bs cs a).
    destruct (body ([], []) a) as [[new registered] | e]; [| reflexivity].
    cbn [mbind result_bind mret result_ret].
    rewrite (IH (bs ++ new) (cs ++ registered)), (IH new registered).
    destruct (for_each body l ([], [])) as [[new' registered'] | e];
      [| reflexivity].
    cbn [mbind result_bind mret result_ret]. now rewrite !app_assoc.
Qed.

Lemma for_each_cons_inv {A B C : Type}
    (body : list B * list C -> A -> result (list B * list C)) :
  (forall bs cs a,
      body (bs, cs) a
      = ('(new, registered) ← body ([], []) a;
         mret (bs ++ new, cs ++ registered))) ->
  forall (a : A) (l : list A) (bs : list B) (cs : list C),
    for_each body (a :: l) ([], []) = Ok (bs, cs) ->
    exists bs1 cs1 bs2 cs2,
      body ([], []) a = Ok (bs1, cs1)
      /\ for_each body l ([], []) = Ok (bs2, cs2)
      /\ bs = bs1 ++ bs2 /\ cs = cs1 ++ cs2.
Proof.
  intros Hbody a l bs cs H. cbn [for_each] in H.
  apply bind_Ok_inv in H as ([bs1 cs1] & H1 & H).
  rewrite (for_each_shift body Hbody) in H.
  apply bind_Ok_inv in H as ([bs2 cs2] & H2 & H).
  injection H as <- <-. exists bs1, cs1, bs2, cs2. auto.
Qed.

(** X8. Both builders of constraints treat a list of conditions piece by
    piece: the result for [l1 ++ l2] is the result for [l1] followed by the
    result for [l2], and it is the first error met when there is one. *)
Theorem builders_compose (simulation : Simulation)
    (l1 l2 : list (gmap string pyval)) :
  apply_boundary_conditions (with_conditions simulation (l1 ++ l2))
  = ('(bcs1, expressions1) ←
       apply_boundary_conditions (with_conditions simulation l1);
     '(bcs2, expressions2) ←
       apply_boundary_conditions (with_conditions simulation l2);
     mret (bcs1 ++ bcs2, expressions1 ++ expressions2))
  /\ define_dirichlet_bcs_T (with_temperature_conditions simulation (l1 ++ l2))
     = ('(bcs1, expressions1) ←
          define_dirichlet_bcs_T (with_temperature_conditions simulation l1);
        '(bcs2, expressions2) ←
          define_dirichlet_bcs_T (with_temperature_conditions simulation l2);
        mret (bcs1 ++ bcs2, expressions1 ++ expressions2)).
Proof.
  split.
  - unfold apply_boundary_conditions.
    cbn [with_conditions parameters boundary_conditions].
    change (apply_boundary_condition (with_conditions simulation (l1 ++ l2)))
      with (apply_boundary_condition simulation).
    change (apply_boundary_condition (with_conditions simulation l1))
      with (apply_boundary_condition simulation).
    change (apply_boundary_condition (with_conditions simulation l2))
      with (apply_boundary_condition simulation).
    rewrite for_each_app.
    destruct (for_each (apply_boundary_condition simulation) l1 ([], []))
      as [[bcs1 expressions1] | e]; [| reflexivity].
    cbn [mbind result_bind].
    apply (for_each_shift (apply_boundary_condition simulation)
             (apply_boundary_condition_shift simulation)).
  - unfold define_dirichlet_bcs_T.
    cbn [with_temperature_conditions parameters
         temperature_boundary_conditions].
    change (define_dirichlet_bc_T
              (with_temperature_conditions simulation (l1 ++ l2)))
      with (define_dirichlet_bc_T simulation).
    change (define_dirichlet_bc_T (with_temperature_conditions simulation l1))
      with (define_dirichlet_bc_T simulation).
    change (define_dirichlet_bc_T (with_temperature_conditions simulation l2))
      with (define_dirichlet_bc_T simulation).
    rewrite for_each_app.
    destruct (for_each (define_dirichlet_bc_T simulation) l1 ([], []))
      as [[bcs1 expressions1] | e]; [| reflexivity].
    cbn [mbind result_bind].
    apply (for_each_shift (define_dirichlet_bc_T simulation)
             (define_dirichlet_bc_T_shift simulation)).
Qed.

Lemma py_in_dc_false (type_BC : pyval) :
  py_in type_BC (bc_types "dc") = false ->
  py_eq type_BC (VStr "dc") = false
  /\ py_eq type_BC (VStr "solubility") = false
  /\ py_eq type_BC (VStr "dc_imp") = false.
Proof.
  rewrite py_in_dc. intros H.
  apply orb_false_iff in H as [H H3]. apply orb_false_iff in H as [H1 H2].
  auto.
Qed.

Lemma build_value_other (simulation : Simulation) (type_BC : pyval)
    (BC : gmap string pyval) (expressions : list expression) :
  py_in type_BC (bc_types "dc") = false ->
  build_value simulation type_BC BC expressions = Ok (None, expressions).
Proof.
  intros H. destruct (py_in_dc_false _ H) as (H1 & H2 & H3).
  unfold build_value. now rewrite H1, H2, H3.
Qed.

(** A condition of a kind that is not essential leaves both lists as they
    were when the loop body returns. *)
Lemma apply_boundary_condition_other_inv (simulation : Simulation)
    (st st' : list DirichletBC * list expression) (BC : gmap string pyval)
    (type_BC : pyval) :
  BC !! "type" = Some type_BC ->
  py_in type_BC (bc_types "dc") = false ->
  apply_boundary_condition simulation st BC = Ok st' ->
  st' = st.
Proof.
  intros Hty Hin H. destruct st as [bcs expressions].
  unfold apply_boundary_condition, has_key in H.
  rewrite Hty, (proj2 (getitem_Ok _ _ _) Hty) in H.
  cbn [mbind result_bind] in H.
  rewrite (build_value_other _ _ _ _ Hin) in H. cbn [mbind result_bind] in H.
  rewrite Hin in H.
  destruct (negb _ && negb _ && negb false).
  - destruct (str_add unknown_type type_BC); discriminate.
  - now injection H as <-.
Qed.

Lemma apply_boundary_condition_type (simulation : Simulation)
    (st st' : list DirichletBC * list expression) (BC : gmap string pyval) :
  apply_boundary_condition simulation st BC = Ok st' ->
  exists type_BC, BC !! "type" = Some type_BC.
Proof.
  intros H. destruct st as [bcs expressions].
  unfold apply_boundary_condition, has_key in H.
  destruct (BC !! "type") as [type_BC |]; [eauto | discriminate].
Qed.

Lemma build_value_registered (simulation : Simulation) (type_BC : pyval)
    (BC : gmap string pyval) (v : value_expression)
    (registered : list expression) :
  build_value simulation type_BC BC [] = Ok (Some v, registered) ->
  (length registered + 1)%nat
  = (if py_eq type_BC (VStr "dc") then 1
     else if py_eq type_BC (VStr "solubility") then 2
     else if py_eq type_BC (VStr "dc_imp") then 3
     else 0)%nat
  /\ Forall untransformed registered.
Proof.
  unfold build_value. intros H.
  destruct (py_eq type_BC (VStr "dc")).
  { apply bind_Ok_inv in H as (value & _ & H). injection H as _ <-.
    split; [reflexivity | constructor]. }
  destruct (py_eq type_BC (VStr "solubility")).
  { apply bind_Ok_inv in H as (p & _ & H).
    apply bind_Ok_inv in H as (s0 & _ & H).
    apply bind_Ok_inv in H as (es & _ & H). injection H as _ <-.
    split; [reflexivity | repeat constructor]. }
  destruct (py_eq type_BC (VStr "dc_imp")); [| discriminate].
  apply bind_Ok_inv in H as (f & _ & H).
  apply bind_Ok_inv in H as (d & _ & H).
  apply bind_Ok_inv in H as (d0 & _ & H).
  apply bind_Ok_inv in H as (ed & _ & H).
  apply bind_Ok_inv in H as ([k0 ek] & _ & H). injection H as _ <-.
  split; [reflexivity | repeat constructor].
Qed.

(** What one condition contributes when the loop body returns. *)
Lemma apply_boundary_condition_inv (simulation : Simulation)
    (BC : gmap string pyval) (new : list DirichletBC)
    (registered : list expression) :
  apply_boundary_condition simulation ([], []) BC = Ok (new, registered) ->
  bc_surface <$> new = surfaces_of (bc_types "dc") BC
  /\ length registered = registered_by simulation BC
  /\ Forall (fun c => bc_space c = funspace_of simulation BC
                      /\ bc_markers c = surface_markers simulation
                      /\ (untransformed (bc_value c)
                          <-> transformed simulation BC = false)) new
  /\ (transformed simulation BC = false -> Forall untransformed registered).
Proof.
  intros H. destruct (apply_boundary_condition_type _ _ _ _ H) as [type_BC Hty].
  unfold surfaces_of, registered_by. rewrite Hty.
  destruct (py_in type_BC (bc_types "dc")) eqn:Hin.
  - destruct (apply_boundary_condition_essential_inv _ _ _ _ _ _ _ Hty Hin H)
      as (v & reg & surfaces & Hval & Hs & -> & ->).
    cbn [app] in Hval. apply build_value_registered in Hval as [Hlen Hreg].
    rewrite Hs. cbn [app andb]. split; [| split; [| split]].
    + rewrite <- list_fmap_compose. clear. induction (as_list surfaces);
        [reflexivity | cbn; now f_equal].
    + destruct (transformed simulation BC); rewrite !length_app; cbn [length];
        lia.
    + clear. induction (as_list surfaces) as [| s l IH]; cbn; constructor;
        [| exact IH].
      cbn. split; [reflexivity |]. split; [reflexivity |].
      destruct (transformed simulation BC); cbn; split; intros ?;
        (discriminate || tauto || reflexivity).
    + intros Htr. rewrite Htr. apply Forall_app. split; [exact Hreg |].
      repeat constructor.
  - assert ((new, registered) = ([], [])) as E
      by (eapply apply_boundary_condition_other_inv; eassumption).
    injection E as -> ->. destruct (py_in_dc_false _ Hin) as (-> & -> & ->).
    cbn [andb]. destruct (BC !! "surfaces"); repeat split; constructor.
Qed.

(** Induction over the conditions a builder has assembled. *)
Lemma for_each_Ok_ind {A B C : Type}
    (body : list B * list C -> A -> result (list B * list C))
    (P : list A -> list B -> list C -> Prop) :
  (forall bs cs a,
      body (bs, cs) a
      = ('(new, registered) ← body ([], []) a;
         mret (bs ++ new, cs ++ registered))) ->
  P [] [] [] ->
  (forall a l bs1 cs1 bs2 cs2,
      body ([], []) a = Ok (bs1, cs1) ->
      for_each body l ([], []) = Ok (bs2, cs2) ->
      P l bs2 cs2 -> P (a :: l) (bs1 ++ bs2) (cs1 ++ cs2)) ->
  forall l bs cs, for_each body l ([], []) = Ok (bs, cs) -> P l bs cs.
Proof.
  intros Hbody Hnil Hcons. induction l as [| a l IH]; intros bs cs H.
  - injection H as <- <-. exact Hnil.
  - destruct (for_each_cons_inv body Hbody a l bs cs H)
      as (bs1 & cs1 & bs2 & cs2 & H1 & H2 & -> & ->).
    apply Hcons; auto.
Qed.

(** X9. The constraints come out in the order of the declarations: their
    surfaces are those of the essential conditions, condition after
    condition and surface after surface, each over the surface markers of
    the simulation; over an undivided function space each constrains the
    whole space. *)
Theorem constraints_in_order (simulation : Simulation)
    (bcs : list DirichletBC) (expressions : list expression) :
  apply_boundary_conditions simulation = Ok (bcs, expressions) ->
  bc_surface <$> bcs
  = concat (surfaces_of (bc_types "dc")
              <$> boundary_conditions (parameters simulation))
  /\ Forall (fun c => bc_markers c = surface_markers simulation) bcs
  /\ (num_sub_spaces (V simulation) = O ->
      Forall (fun c => bc_space c = V simulation) bcs).
Proof.
  unfold apply_boundary_conditions.
  apply (for_each_Ok_ind (apply_boundary_condition simulation)
           (fun l bcs _ =>
              bc_surface <$> bcs = concat (surfaces_of (bc_types "dc") <$> l)
              /\ Forall (fun c => bc_markers c = surface_markers simulation) bcs
              /\ (num_sub_spaces (V simulation) = O ->
                  Forall (fun c => bc_space c = V simulation) bcs))
           (apply_boundary_condition_shift simulation)).
  - repeat split; constructor.
  - intros BC l bs1 cs1 bs2 cs2 H1 _ (IHs & IHm & IHV).
    apply apply_boundary_condition_inv in H1 as (Hs & _ & Hall & _).
    split; [| split].
    + rewrite fmap_app, Hs, IHs. reflexivity.
    + apply Forall_app. split; [| exact IHm].
      eapply Forall_impl; [exact Hall |]. now intros c (_ & Hm & _).
    + intros HV. apply Forall_app. split; [| now apply IHV].
      eapply Forall_impl; [exact Hall |]. intros c (Hsp & _ & _).
      rewrite Hsp. unfold funspace_of. now rewrite HV.
Qed.

(** X10. The list of expressions to update has one entry for each
    fixed-value condition, two for each solubility condition, three for each
    implantation condition, and one more for each essential condition whose
    value is transformed. *)
Theorem expressions_registered (simulation : Simulation)
    (bcs : list DirichletBC) (expressions : list expression) :
  apply_boundary_conditions simulation = Ok (bcs, expressions) ->
  length expressions
  = sum_list (registered_by simulation
                <$> boundary_conditions (parameters simulation)).
Proof.
  unfold apply_boundary_conditions.
  apply (for_each_Ok_ind (apply_boundary_condition simulation)
           (fun l _ expressions =>
              length expressions = sum_list (registered_by simulation <$> l))
           (apply_boundary_condition_shift simulation)).
  - reflexivity.
  - intros BC l bs1 cs1 bs2 cs2 H1 _ IH.
    apply apply_boundary_condition_inv in H1 as (_ & Hlen & _).
    rewrite length_app, Hlen, IH. reflexivity.
Qed.

(** X11. Without a material that defines [S_0], no constraint and no
    registered expression is a transformed value; with such a material,
    every constraint of a list whose conditions name no component imposes a
    transformed value. *)
Theorem transform_follows_mode (simulation : Simulation)
    (bcs : list DirichletBC) (expressions : list expression) :
  apply_boundary_conditions simulation = Ok (bcs, expressions) ->
  let mode := conservation_chemic_pot (materials (parameters simulation)) in
  (mode = false ->
   Forall (fun c => untransformed (bc_value c)) bcs
   /\ Forall untransformed expressions)
  /\ (mode = true ->
      Forall (fun BC : gmap string pyval => BC !! "component" = None)
        (boundary_conditions (parameters simulation)) ->
      Forall (fun c => ~ untransformed (bc_value c)) bcs).
Proof.
  intros H mode. revert H. unfold apply_boundary_conditions.
  apply (for_each_Ok_ind (apply_boundary_condition simulation)
           (fun l bcs expressions =>
              (mode = false ->
               Forall (fun c => untransformed (bc_value c)) bcs
               /\ Forall untransformed expressions)
              /\ (mode = true ->
                  Forall (fun BC : gmap string pyval =>
                            BC !! "component" = None) l ->
                  Forall (fun c => ~ untransformed (bc_value c)) bcs))
           (apply_boundary_condition_shift simulation)).
  - split; intros; repeat split; constructor.
  - intros BC l bs1 cs1 bs2 cs2 H1 _ [IHoff IHon].
    apply apply_boundary_condition_inv in H1 as (_ & _ & Hall & Hreg).
    split.
    + intros Hoff. destruct (IHoff Hoff) as [IHb IHe].
      assert (transformed simulation BC = false) as Htr.
      { unfold transformed. fold mode. rewrite Hoff. apply andb_false_r. }
      split; apply Forall_app; split; try assumption; [| now apply Hreg].
      eapply Forall_impl; [exact Hall |]. intros c (_ & _ & Hc).
      now apply Hc.
    + intros Hon Hcomp. apply Forall_cons in Hcomp as [Hc Hcomp].
      assert (transformed simulation BC = true) as Htr.
      { unfold transformed, component_of. fold mode. now rewrite Hc, Hon. }
      apply Forall_app. split; [| now apply IHon].
      eapply Forall_impl; [exact Hall |]. intros c (_ & _ & Hu) Hun.
      apply Hu in Hun. congruence.
Qed.

(** ** The builder of the temperature constraints *)

Lemma define_dirichlet_bc_T_inv (simulation : Simulation)
    (bc : gmap string pyval) (new : list DirichletBC)
    (registered : list expression) :
  define_dirichlet_bc_T simulation ([], []) bc = Ok (new, registered) ->
  bc_surface <$> new = surfaces_of ["dc"] bc
  /\ length registered = (if is_kind "dc" bc then 1 else 0)%nat
  /\ Forall (fun c => bc_space c = V_CG1 simulation
                      /\ bc_markers c = surface_markers simulation
                      /\ exists e, bc_value c = Value (Expr e)
                                   /\ degree e = 2%Z) new.
Proof.
  unfold define_dirichlet_bc_T. intros H.
  apply bind_Ok_inv in H as (type_bc & Hty & H). apply getitem_Ok in Hty.
  unfold surfaces_of, is_kind, py_in. rewrite Hty. cbn [existsb].
  rewrite orb_false_r.
  destruct (py_eq type_bc (VStr "dc")).
  - apply bind_Ok_inv in H as (value & _ & H).
    apply bind_Ok_inv in H as (surfaces & Hs & H). apply getitem_Ok in Hs.
    injection H as <- <-. rewrite Hs. cbn [app].
    split; [| split; [reflexivity |]].
    + rewrite <- list_fmap_compose. clear. induction (as_list surfaces);
        [reflexivity | cbn; now f_equal].
    + clear. induction (as_list surfaces) as [| s l IH]; cbn; constructor;
        [| exact IH].
      cbn. split; [reflexivity |]. split; [reflexivity |]. eexists.
      split; reflexivity.
  - injection H as <- <-. destruct (bc !! "surfaces"); repeat split;
      constructor.
Qed.

(** X12. The builder of the temperature constraints never transforms a
    value, whatever the materials define: each constraint it returns is over
    the space [V_CG1] and the surface markers, and imposes a compiled
    expression of degree 2. The surfaces come in the order of the
    declarations, and one expression is registered for each condition of
    kind "dc". *)
Theorem thermal_constraints (simulation : Simulation)
    (bcs : list DirichletBC) (expressions : list expression) :
  define_dirichlet_bcs_T simulation = Ok (bcs, expressions) ->
  let l := temperature_boundary_conditions (parameters simulation) in
  bc_surface <$> bcs = concat (surfaces_of ["dc"] <$> l)
  /\ length expressions = count_kind "dc" l
  /\ Forall (fun c => bc_space c = V_CG1 simulation
                      /\ bc_markers c = surface_markers simulation
                      /\ exists e, bc_value c = Value (Expr e)
                                   /\ degree e = 2%Z) bcs.
Proof.
  unfold define_dirichlet_bcs_T. cbv zeta.
  apply (for_each_Ok_ind (define_dirichlet_bc_T simulation)
           (fun l bcs expressions =>
              bc_surface <$> bcs = concat (surfaces_of ["dc"] <$> l)
              /\ length expressions = count_kind "dc" l
              /\ Forall (fun c => bc_space c = V_CG1 simulation
                                  /\ bc_markers c = surface_markers simulation
                                  /\ exists e, bc_value c = Value (Expr e)
                                               /\ degree e = 2%Z) bcs)
           (define_dirichlet_bc_T_shift simulation)).
  - repeat split; constructor.
  - intros bc l bs1 cs1 bs2 cs2 H1 _ (IHs & IHn & IHall).
    apply define_dirichlet_bc_T_inv in H1 as (Hs & Hn & Hall).
    split; [| split].
    + rewrite fmap_app, Hs, IHs. reflexivity.
    + rewrite length_app, Hn, IHn. reflexivity.
    + apply Forall_app. now split.
Qed.

(** ** Kinds and keys *)

(** X13. A condition of a recognised kind is the business of one builder
    only: the builder of flux terms leaves its form and expressions as they
    were on an essential condition, and the builder of constraints leaves
    its lists as they were on a flux or recombination condition. *)
Theorem each_kind_one_builder (simulation : Simulation)
    (BC : gmap string pyval) (kind : string) :
  BC !! "type" = Some (VStr kind) ->
  (In kind (bc_types "dc") ->
   forall k_B st, apply_flux k_B simulation st BC = Ok st)
  /\ (In kind (bc_types "neumann" ++ bc_types "robin") ->
      forall st, apply_boundary_condition simulation st BC = Ok st).
Proof.
  intros Hty. split.
  - intros Hin k_B [F expressions]. apply py_in_str in Hin.
    unfold apply_flux. rewrite (proj2 (getitem_Ok _ _ _) Hty).
    cbn [mbind result_bind]. now rewrite Hin.
  - intros Hin [bcs expressions].
    unfold apply_boundary_condition, has_key.
    rewrite Hty, (proj2 (getitem_Ok _ _ _) Hty). cbn [mbind result_bind].
    destruct Hin as [<- | [<- | []]]; reflexivity.
Qed.

Lemma py_eq_not_str (type_BC : pyval) (s : string) :
  (forall s', type_BC <> VStr s') -> py_eq type_BC (VStr s) = false.
Proof.
  intros H. destruct type_BC; try reflexivity. now destruct (H s0).
Qed.

Lemma py_in_not_str (type_BC : pyval) (l : list string) :
  (forall s', type_BC <> VStr s') -> py_in type_BC l = false.
Proof.
  intros H. unfold py_in. induction l as [| s l IH]; [reflexivity |].
  cbn [existsb]. now rewrite (py_eq_not_str _ s H), IH.
Qed.

(** X14. A kind that is not a string cannot be appended to the message of
    the unknown-kind error: the builder of constraints and the builder of
    flux terms raise [TypeError] on such a condition, and the builder of
    temperature constraints passes over it. *)
Theorem kind_not_a_string (simulation : Simulation) (BC : gmap string pyval)
    (type_BC : pyval) :
  BC !! "type" = Some type_BC ->
  (forall s, type_BC <> VStr s) ->
  (forall st, apply_boundary_condition simulation st BC = Raise TypeError)
  /\ (forall k_B st, apply_flux k_B simulation st BC = Raise TypeError)
  /\ (forall st, define_dirichlet_bc_T simulation st BC = Ok st).
Proof.
  intros Hty Hns.
  assert (str_add unknown_type type_BC = Raise TypeError) as Hadd.
  { destruct type_BC; try reflexivity. now destruct (Hns s). }
  split; [| split].
  - intros [bcs expressions]. unfold apply_boundary_condition, has_key.
    rewrite Hty, (proj2 (getitem_Ok _ _ _) Hty). cbn [mbind result_bind].
    rewrite build_value_other by now apply py_in_not_str.
    cbn [mbind result_bind]. rewrite !py_in_not_str by assumption.
    cbn [negb andb]. now rewrite Hadd.
  - intros k_B [F expressions]. unfold apply_flux.
    rewrite (proj2 (getitem_Ok _ _ _) Hty). cbn [mbind result_bind].
    rewrite !py_in_not_str by assumption. cbn [negb andb]. now rewrite Hadd.
  - intros st. apply (define_dirichlet_bc_T_skips _ _ _ _ Hty).
    now apply py_eq_not_str.
Qed.

(** X15. A condition without the key [type] makes every builder raise
    [KeyError]: the builder of constraints with its own message, the two
    others with the name of the key. *)
Theorem missing_type (simulation : Simulation) (BC : gmap string pyval) :
  BC !! "type" = None ->
  (forall st,
      apply_boundary_condition simulation st BC
      = Raise (KeyError "Missing boundary condition type key"))
  /\ (forall k_B st,
         apply_flux k_B simulation st BC = Raise (KeyError "type"))
  /\ (forall st,
         define_dirichlet_bc_T simulation st BC = Raise (KeyError "type")).
Proof.
  intros Hty. split; [| split].
  - intros [bcs expressions]. unfold apply_boundary_condition, has_key.
    now rewrite Hty.
  - intros k_B [F expressions]. unfold apply_flux.
    now rewrite (getitem_None _ _ Hty).
  - intros [bcs expressions]. unfold define_dirichlet_bc_T.
    now rewrite (getitem_None _ _ Hty).
Qed.

(** X16. The two builders decide the mode differently, and they disagree in
    exactly two situations: no solubility field [S] was set although a
    material defines [S_0], or [S] was set and the materials define [E_S]
    but never [S_0]. *)
Theorem modes_disagree (simulation : Simulation) :
  let mats := materials (parameters simulation) in
  conservation_chemic_pot_fluxes simulation <> conservation_chemic_pot mats
  <-> (S simulation = None
       /\ exists mat, mat ∈ mats /\ is_Some (mat !! "S_0"))
      \/ (is_Some (S simulation)
          /\ (forall mat, mat ∈ mats -> mat !! "S_0" = None)
          /\ exists mat, mat ∈ mats /\ is_Some (mat !! "E_S")).
Proof.
  intros mats.
  pose proof (conservation_chemic_pot_spec mats) as Hd.
  pose proof (conservation_chemic_pot_fluxes_spec simulation) as Hf.
  fold mats in Hf.
  destruct (conservation_chemic_pot_fluxes simulation) eqn:Ef;
    destruct (conservation_chemic_pot mats) eqn:Ed; split;
    try (intros H; now destruct H).
  - intros [[HS _] | (_ & Hno & _)].
    + destruct (proj1 Hf eq_refl) as [[s Hs] _]. congruence.
    + destruct (proj1 Hd eq_refl) as (mat & Hin & [v Hv]).
      rewrite (Hno mat Hin) in Hv. discriminate.
  - intros _. right. destruct (proj1 Hf eq_refl) as (HS & mat & Hin & Hk).
    split; [exact HS |]. split.
    + intros m Hm. destruct (m !! "S_0") eqn:E; [| reflexivity].
      assert (false = true); [| discriminate]. apply Hd. eauto.
    + exists mat. split; [exact Hin |]. destruct Hk as [[v Hv] | HE];
        [| exact HE].
      assert (false = true); [| discriminate]. apply Hd. eauto.
  - intros _. left. destruct (proj1 Hd eq_refl) as (mat & Hin & HS0).
    split; [| eauto].
    destruct (S simulation) eqn:ES; [| reflexivity].
    assert (false = true); [| discriminate]. apply Hf. split; eauto.
  - intros [(_ & mat & Hin & HS0) | (HS & _ & mat & Hin & HE)].
    + assert (false = true); [| discriminate]. apply Hd. eauto.
    + assert (false = true); [| discriminate]. apply Hf. split; eauto.
Qed.

(** ** The builder of the flux terms *)

Lemma apply_flux_shift (k_B : R) (simulation : Simulation)
    (F : list flux_term) (expressions : list expression)
    (bc : gmap string pyval) :
  apply_flux k_B simulation (F, expressions) bc
  = ('(new, registered) ← apply_flux k_B simulation ([], []) bc;
     mret (F ++ new, expressions ++ registered)).
Proof.
  unfold apply_flux.
  destruct (getitem bc "type") as [type_bc | e]; [| reflexivity].
  cbn [mbind result_bind].
  destruct (negb (py_in type_bc (bc_types "dc")));
    [| cbn [mbind result_bind mret result_ret]; now rewrite !app_nil_r].
  destruct (negb _ && negb _).
  { destruct (str_add unknown_type type_bc); reflexivity. }
  destruct (py_eq type_bc (VStr "flux")).
  { destruct (getitem bc "value") as [value | e]; [| reflexivity].
    cbn [mbind result_bind].
    destruct (getitem bc "surfaces") as [surfaces | e]; reflexivity. }
  destruct (py_eq type_bc (VStr "recomb")); [| reflexivity].
  destruct (getitem bc "Kr_0") as [Kr_0 | e]; [| reflexivity].
  cbn [mbind result_bind].
  destruct (getitem bc "E_Kr") as [E_Kr | e]; [| reflexivity].
  cbn [mbind result_bind].
  destruct (to_float E_Kr) as [ek | e]; [| reflexivity].
  cbn [mbind result_bind].
  destruct (fdiv (- ek) k_B) as [a | e]; [| reflexivity].
  cbn [mbind result_bind].
  destruct (to_float Kr_0) as [k | e]; [| reflexivity].
  cbn [mbind result_bind].
  destruct (getitem bc "order") as [order | e]; [| reflexivity].
  cbn [mbind result_bind].
  destruct (getitem bc "surfaces") as [surfaces | e];
    cbn [mbind result_bind mret result_ret app];
    rewrite ?app_nil_r; reflexivity.
Qed.

Lemma essential_not_flux (type_bc : pyval) :
  py_in type_bc (bc_types "dc") = true ->
  py_eq type_bc (VStr "flux") = false
  /\ py_eq type_bc (VStr "recomb") = false.
Proof.
  rewrite py_in_dc. intros H.
  apply orb_true_iff in H as [H | H]; [apply orb_true_iff in H as [H | H] |];
    apply py_eq_str in H; subst type_bc; split; reflexivity.
Qed.

Lemma apply_flux_inv (k_B : R) (simulation : Simulation)
    (bc : gmap string pyval) (new : list flux_term)
    (registered : list expression) :
  apply_flux k_B simulation ([], []) bc = Ok (new, registered) ->
  term_surface <$> new = surfaces_of ["flux"; "recomb"] bc
  /\ length registered = (if is_kind "flux" bc then 1 else 0)%nat
  /\ Forall (flux_term_ok simulation) new.
Proof.
  unfold apply_flux. intros H.
  apply bind_Ok_inv in H as (type_bc & Hty & H). apply getitem_Ok in Hty.
  unfold surfaces_of, is_kind, py_in. rewrite Hty. cbn [existsb].
  rewrite orb_false_r.
  destruct (py_in type_bc (bc_types "dc")) eqn:Hin; cbn [negb] in H.
  { injection H as <- <-.
    destruct (essential_not_flux _ Hin) as [-> ->]. cbn [orb].
    destruct (bc !! "surfaces"); repeat split; constructor. }
  change (bc_types "neumann") with ["flux"] in H.
  change (bc_types "robin") with ["recomb"] in H.
  unfold py_in in H. cbn [existsb] in H. rewrite !orb_false_r in H.
  destruct (py_eq type_bc (VStr "flux")) eqn:Hflux.
  - cbn [negb andb orb] in H.
    apply bind_Ok_inv in H as ([flux expressions] & Hf & H).
    apply bind_Ok_inv in Hf as (value & _ & Hf). injection Hf as <- <-.
    apply bind_Ok_inv in H as (surfaces & Hs & H). apply getitem_Ok in Hs.
    injection H as <- <-. rewrite Hs. cbn [app orb].
    split; [| split; [reflexivity |]].
    + rewrite <- list_fmap_compose. clear. induction (as_list surfaces);
        [reflexivity | cbn; now f_equal].
    + clear. induction (as_list surfaces) as [| s l IH]; cbn; constructor;
        [reflexivity | exact IH].
  - destruct (py_eq type_bc (VStr "recomb")) eqn:Hrec; cbn [negb andb orb] in H.
    + apply bind_Ok_inv in H as ([flux expressions] & Hf & H).
      apply bind_Ok_inv in Hf as (Kr_0 & _ & Hf).
      apply bind_Ok_inv in Hf as (E_Kr & _ & Hf).
      apply bind_Ok_inv in Hf as (ek & _ & Hf).
      apply bind_Ok_inv in Hf as (a & _ & Hf).
      apply bind_Ok_inv in Hf as (k & _ & Hf).
      apply bind_Ok_inv in Hf as (order & _ & Hf). injection Hf as <- <-.
      apply bind_Ok_inv in H as (surfaces & Hs & H). apply getitem_Ok in Hs.
      injection H as <- <-. rewrite Hs. cbn [app].
      split; [| split; [reflexivity |]].
      * rewrite <- list_fmap_compose. clear. induction (as_list surfaces);
          [reflexivity | cbn; now f_equal].
      * clear. induction (as_list surfaces) as [| s l IH]; cbn; constructor;
          [reflexivity | exact IH].
    + destruct (str_add unknown_type type_bc); discriminate.
Qed.

(** X17. The flux terms come in the order of the declarations, one for each
    surface of each flux or recombination condition; every recombination
    term is written in [solute*S] when the builder's mode is on and in the
    plain solute otherwise, every prescribed flux is a compiled expression
    of degree 2, and only the prescribed fluxes are registered for
    update. *)
Theorem flux_terms (k_B : R) (simulation : Simulation)
    (F : list flux_term) (expressions : list expression) :
  apply_fluxes k_B simulation = Ok (F, expressions) ->
  let l := boundary_conditions (parameters simulation) in
  term_surface <$> F = concat (surfaces_of ["flux"; "recomb"] <$> l)
  /\ length expressions = count_kind "flux" l
  /\ Forall (flux_term_ok simulation) F.
Proof.
  unfold apply_fluxes. cbv zeta.
  apply (for_each_Ok_ind (apply_flux k_B simulation)
           (fun l F expressions =>
              term_surface <$> F
              = concat (surfaces_of ["flux"; "recomb"] <$> l)
              /\ length expressions = count_kind "flux" l
              /\ Forall (flux_term_ok simulation) F)
           (apply_flux_shift k_B simulation)).
  - repeat split; constructor.
  - intros bc l bs1 cs1 bs2 cs2 H1 _ (IHs & IHn & IHall).
    apply apply_flux_inv in H1 as (Hs & Hn & Hall).
    split; [| split].
    + rewrite fmap_app, Hs, IHs. reflexivity.
    + rewrite length_app, Hn, IHn. reflexivity.
    + apply Forall_app. now split.
Qed.

Lemma apply_flux_surfaces (k_B : R) (simulation : Simulation)
    (st : list flux_term * list expression) (bc : gmap string pyval)
    (a b : pyval) :
  as_list a = as_list b ->
  apply_flux k_B simulation st (<["surfaces":=a]> bc)
  = apply_flux k_B simulation st (<["surfaces":=b]> bc).
Proof.
  intros Hab. destruct st as [F expressions]. unfold apply_flux.
  rewrite !(getitem_insert_ne _ "surfaces" "type"),
    !(getitem_insert_ne _ "surfaces" "value"),
    !(getitem_insert_ne _ "surfaces" "Kr_0"),
    !(getitem_insert_ne _ "surfaces" "E_Kr"),
    !(getitem_insert_ne _ "surfaces" "order") by discriminate.
  rewrite !getitem_insert_eq.
  destruct (getitem bc "type") as [type_bc | e]; [| reflexivity].
  cbn [mbind result_bind].
  destruct (negb (py_in type_bc (bc_types "dc"))); [| reflexivity].
  destruct (negb _ && negb _); [reflexivity |].
  destruct (if py_eq type_bc (VStr "flux") then _ else _)
    as [[flux expressions'] | e]; [| reflexivity].
  cbn [mbind result_bind]. now rewrite Hab.
Qed.

(** X18. The builder of the flux terms gives the same result for a
    condition whose [surfaces] is the bare id [z] and for the same
    condition with the one-element list [[z]]. *)
Theorem flux_surfaces_normalised (k_B : R) (simulation : Simulation)
    (pre post : list (gmap string pyval)) (bc : gmap string pyval) (z : Z) :
  apply_fluxes k_B
    (with_conditions simulation (pre ++ <["surfaces":=VInt z]> bc :: post))
  = apply_fluxes k_B
      (with_conditions simulation
         (pre ++ <["surfaces":=VList [z]]> bc :: post)).
Proof.
  unfold apply_fluxes. cbn [with_conditions parameters boundary_conditions].
  apply (for_each_middle
           (apply_flux k_B
              (with_conditions simulation
                 (pre ++ <["surfaces":=VInt z]> bc :: post)))).
  intros st'. now apply apply_flux_surfaces.
Qed.

(** X19. An implantation-recombination condition that supplies both [K_0]
    and [E_K] is assembled with the two values handed to its value as they
    are declared; when the declared [K_0] is [None] the value still
    evaluates without the recombination term. *)
Theorem both_recombination_keys (simulation : Simulation)
    (bcs : list DirichletBC) (expressions : list expression)
    (BC : gmap string pyval)
    (implanted_flux implantation_depth D_0 E_D K_0 E_K surfaces : pyval) :
  BC !! "type" = Some (VStr "dc_imp") ->
  BC !! "implanted_flux" = Some implanted_flux ->
  BC !! "implantation_depth" = Some implantation_depth ->
  BC !! "D_0" = Some D_0 ->
  BC !! "E_D" = Some E_D ->
  BC !! "K_0" = Some K_0 ->
  BC !! "E_K" = Some E_K ->
  BC !! "surfaces" = Some surfaces ->
  let phi := mkExpression implanted_flux 0 1 in
  let R_p := mkExpression implantation_depth 0 1 in
  let r := BoundaryConditionRecomb.__init__ phi R_p K_0 E_K D_0 E_D
             (T simulation) in
  let value_BC :=
    if transformed simulation BC then theta_of simulation (Recomb r)
    else Value (Recomb r) in
  apply_boundary_condition simulation (bcs, expressions) BC
  = Ok (bcs ++ (mkDirichletBC (funspace_of simulation BC) value_BC
                  (surface_markers simulation) <$> as_list surfaces),
        (if transformed simulation BC
         then (expressions ++ [Value (Expr phi); Value (Expr R_p)])
              ++ [Value (Recomb r)]
         else expressions ++ [Value (Expr phi); Value (Expr R_p)])
        ++ [value_BC])
  /\ (K_0 = VNone ->
      forall k_B call x,
        BoundaryConditionRecomb.eval k_B call r x
        = (D ← arrhenius k_B D_0 E_D (T simulation x);
           fdiv (call phi x * call R_p x) D)).
Proof.
  intros Hty Hphi HRp HD0 HED HK0 HEK Hs phi R_p r value_BC. split.
  - assert (build_value simulation (VStr "dc_imp") BC expressions
            = Ok (Some (Recomb r),
                  expressions ++ [Value (Expr phi); Value (Expr R_p)]))
      as Hval.
    { unfold build_value, has_key. simpl py_eq. cbn iota.
      rewrite HK0, HEK.
      rewrite (proj2 (getitem_Ok _ _ _) Hphi), (proj2 (getitem_Ok _ _ _) HRp),
        (proj2 (getitem_Ok _ _ _) HD0), (proj2 (getitem_Ok _ _ _) HED),
        (proj2 (getitem_Ok _ _ _) HK0), (proj2 (getitem_Ok _ _ _) HEK).
      reflexivity. }
    rewrite (apply_boundary_condition_essential _ _ _ _ _ _ _ Hty eq_refl Hval).
    rewrite (proj2 (getitem_Ok _ _ _) Hs). reflexivity.
  - intros -> k_B call x. now apply recomb_eval_instantaneous.
Qed.

(** ** Surfaces as collections *)

Lemma as_list_surface_set (surfaces : pyval) :
  as_list surfaces = surface_set surfaces.
Proof.
  now destruct surfaces.
Qed.

Lemma surfaces_of_essential (kinds : list string) (BC : gmap string pyval) :
  surfaces_of kinds BC = essential_surfaces kinds BC.
Proof.
  unfold surfaces_of, essential_surfaces.
  destruct (BC !! "type"), (BC !! "surfaces");
    now rewrite ?as_list_surface_set.
Qed.

Lemma essential_surfaces_length (kinds : list string)
    (l : list (gmap string pyval)) :
  length (concat (essential_surfaces kinds <$> l)) = essential_pairs kinds l.
Proof.
  induction l as [| BC l IH]; [reflexivity |].
  cbn [fmap list_fmap concat essential_pairs foldr].
  rewrite length_app. fold (essential_pairs kinds l). rewrite IH.
  f_equal. unfold essential_surfaces.
  destruct (BC !! "type") as [type_BC |]; [| reflexivity].
  destruct (BC !! "surfaces") as [surfaces |]; [| reflexivity].
  destruct (py_in type_BC kinds); [| reflexivity].
  destruct surfaces; try reflexivity. cbn. apply length_fmap.
Qed.

(** C9. A condition whose [surfaces] is the bare id [z] and the same
    condition with the one-element list [[z]] give the same result, in the
    builder of the concentration constraints and in the builder of the
    temperature constraints.  The constraints a builder returns are over
    the surfaces the essential conditions declare, a lone id counting as the
    collection of that id, in the order of the declarations; they are as
    many as the (condition, surface) pairs. *)
Theorem surfaces_normalised (simulation : Simulation)
    (pre post l : list (gmap string pyval)) (BC : gmap string pyval) (z : Z) :
  let bare := pre ++ <["surfaces":=VInt z]> BC :: post in
  let singleton := pre ++ <["surfaces":=VList [z]]> BC :: post in
  apply_boundary_conditions (with_conditions simulation bare)
  = apply_boundary_conditions (with_conditions simulation singleton)
  /\ define_dirichlet_bcs_T (with_temperature_conditions simulation bare)
     = define_dirichlet_bcs_T (with_temperature_conditions simulation singleton)
  /\ (forall bcs expressions,
         apply_boundary_conditions (with_conditions simulation l)
         = Ok (bcs, expressions) ->
         bc_surface <$> bcs
         = concat (essential_surfaces (bc_types "dc") <$> l)
         /\ length bcs = essential_pairs (bc_types "dc") l)
  /\ (forall bcs expressions,
         define_dirichlet_bcs_T (with_temperature_conditions simulation l)
         = Ok (bcs, expressions) ->
         bc_surface <$> bcs = concat (essential_surfaces ["dc"] <$> l)
         /\ length bcs = essential_pairs ["dc"] l).
Proof.
  intros bare singleton. split; [| split; [| split]].
  - unfold apply_boundary_conditions. cbn [with_conditions parameters
      boundary_conditions]. subst bare singleton.
    apply (for_each_middle
             (apply_boundary_condition
                (with_conditions simulation (pre ++ <["surfaces":=VInt z]> BC :: post)))).
    intros st'. now apply apply_boundary_condition_surfaces.
  - unfold define_dirichlet_bcs_T. cbn [with_temperature_conditions parameters
      temperature_boundary_conditions]. subst bare singleton.
    apply (for_each_middle
             (define_dirichlet_bc_T
                (with_temperature_conditions simulation
                   (pre ++ <["surfaces":=VInt z]> BC :: post)))).
    intros st'. now apply define_dirichlet_bc_T_surfaces.
  - intros bcs expressions H.
    assert (bc_surface <$> bcs
            = concat (essential_surfaces (bc_types "dc") <$> l)) as Hs.
    { revert H. unfold apply_boundary_conditions.
      cbn [with_conditions parameters boundary_conditions].
      apply (for_each_Ok_ind
               (apply_boundary_condition (with_conditions simulation l))
               (fun l bcs _ =>
                  bc_surface <$> bcs
                  = concat (essential_surfaces (bc_types "dc") <$> l))
               (apply_boundary_condition_shift _)).
      - reflexivity.
      - intros a l' bs1 cs1 bs2 cs2 H1 _ IH.
        apply apply_boundary_condition_inv in H1 as (Hs & _).
        rewrite fmap_app, Hs, IH, surfaces_of_essential. reflexivity. }
    split; [exact Hs |].
    rewrite <- essential_surfaces_length, <- Hs. now rewrite length_fmap.
  - intros bcs expressions H.
    assert (bc_surface <$> bcs = concat (essential_surfaces ["dc"] <$> l))
      as Hs.
    { revert H. unfold define_dirichlet_bcs_T.
      cbn [with_temperature_conditions parameters
           temperature_boundary_conditions].
      apply (for_each_Ok_ind
               (define_dirichlet_bc_T (with_temperature_conditions simulation l))
               (fun l bcs _ =>
                  bc_surface <$> bcs = concat (essential_surfaces ["dc"] <$> l))
               (define_dirichlet_bc_T_shift _)).
      - reflexivity.
      - intros a l' bs1 cs1 bs2 cs2 H1 _ IH.
        apply define_dirichlet_bc_T_inv in H1 as (Hs & _).
        rewrite fmap_app, Hs, IH, surfaces_of_essential. reflexivity. }
    split; [exact Hs |].
    rewrite <- essential_surfaces_length, <- Hs. now rewrite length_fmap.
Qed.

(** ** The further properties on the sample inputs *)

Lemma solubility_value_witness :
  (0 < 1)%R /\ 300%R <> 0%R
  /\ to_float (VFloat 2) = Ok 2%R /\ to_float (VFloat 0) = Ok 0%R
  /\ (0 <= constant_call (mkExpression (VFloat 4) 0 2) [])%R
  /\ BoundaryConditionSolubility.eval 1 constant_call sample_solubility_4 []
     = Ok (arrhenius_law 1 2 0 300
           * sqrt (constant_call (mkExpression (VFloat 4) 0 2) []))%R.
Proof.
  assert (0 <= constant_call (mkExpression (VFloat 4) 0 2) [])%R as Hp
    by (unfold constant_call; simpl; lra).
  split; [lra |]. split; [lra |]. split; [reflexivity |].
  split; [reflexivity |]. split; [exact Hp |].
  apply (solubility_value 1 constant_call sample_solubility_4 [] 2 0);
    try reflexivity; try exact Hp; try (simpl; lra).
Defined.


Lemma recomb_K_0_without_E_K_witness :
  (0 < 1)%R /\ 300%R <> 0%R
  /\ to_float (VFloat 1) = Ok 1%R /\ to_float (VFloat 0) = Ok 0%R
  /\ 1%R <> 0%R /\ VFloat 1 <> VNone
  /\ BoundaryConditionRecomb._E_K recomb_without_E_K = VNone
  /\ BoundaryConditionRecomb.eval 1 sample_call recomb_without_E_K []
     = Raise TypeError.
Proof.
  split; [lra |]. split; [lra |]. split; [reflexivity |].
  split; [reflexivity |]. split; [lra |]. split; [discriminate |].
  split; [reflexivity |].
  apply (recomb_K_0_without_E_K 1 sample_call recomb_without_E_K [] 1 0);
    try reflexivity; try (simpl; lra). discriminate.
Defined.

Lemma theta_needs_cell_solubility_witness :
  find_material_from_id [tungsten; steel] 2 = Ok steel
  /\ steel !! "S_0" = None
  /\ conservation_chemic_pot [tungsten; steel] = true
  /\ BoundaryConditionTheta.eval_cell 1 constant_call theta_in_steel [] 0
     = Raise (KeyError "S_0").
Proof.
  split; [reflexivity |]. split; [reflexivity |]. split; [reflexivity |].
  apply (theta_needs_cell_solubility 1 constant_call theta_in_steel steel
           [] 0%nat); reflexivity.
Defined.

Lemma interface_law_homogeneous_witness :
  MassFlux.c_interface_liquid 1 sievert_mass_flux (fun _ => 300%R)
    (fun _ => 1%R)
  = Ok (fun _ => 1 / sieverts_constant 1 300 1 0
                 * sieverts_constant 1 300 1 0)%R
  /\ exists scaled,
       MassFlux.c_interface_liquid 1 sievert_mass_flux (fun _ => 300%R)
         (fun x => 3 * 1)%R = Ok scaled
       /\ forall x : point,
            scaled x
            = (3 * (1 / sieverts_constant 1 300 1 0
                    * sieverts_constant 1 300 1 0))%R.
Proof.
  assert (MassFlux.c_interface_liquid 1 sievert_mass_flux (fun _ => 300%R)
            (fun _ => 1%R)
          = Ok (fun _ => 1 / sieverts_constant 1 300 1 0
                         * sieverts_constant 1 300 1 0)%R) as H.
  { apply (c_interface_liquid_sievert 1 sievert_mass_flux (fun _ => 300%R)
             (fun _ => 1%R)); [reflexivity | simpl; lra]. }
  split; [exact H |].
  exact (interface_law_homogeneous 1 sievert_mass_flux (fun _ => 300%R)
           (fun _ => 1%R) _ 3 H).
Defined.

Lemma constraints_in_order_witness :
  apply_boundary_conditions mixed_simulation
  = Ok (outcome (apply_boundary_conditions mixed_simulation))
  /\ bc_surface <$> (outcome (apply_boundary_conditions mixed_simulation)).1
     = [VInt 1; VInt 2]
  /\ Forall (fun c => bc_space c = V mixed_simulation)
       (outcome (apply_boundary_conditions mixed_simulation)).1.
Proof.
  split; [reflexivity |].
  destruct (constraints_in_order mixed_simulation
              (outcome (apply_boundary_conditions mixed_simulation)).1
              (outcome (apply_boundary_conditions mixed_simulation)).2
              eq_refl) as (Hs & _ & HV).
  split; [exact Hs | apply HV; reflexivity].
Defined.

Lemma expressions_registered_witness :
  apply_boundary_conditions mixed_simulation
  = Ok (outcome (apply_boundary_conditions mixed_simulation))
  /\ length (outcome (apply_boundary_conditions mixed_simulation)).2
     = sum_list (registered_by mixed_simulation
                   <$> [flux_condition; fixed_value; recomb_condition]).
Proof.
  split; [reflexivity |].
  exact (expressions_registered mixed_simulation
           (outcome (apply_boundary_conditions mixed_simulation)).1
           (outcome (apply_boundary_conditions mixed_simulation)).2 eq_refl).
Defined.

Lemma transform_follows_mode_witness :
  apply_boundary_conditions mixed_simulation
  = Ok (outcome (apply_boundary_conditions mixed_simulation))
  /\ conservation_chemic_pot [tungsten] = true
  /\ Forall (fun BC : gmap string pyval => BC !! "component" = None)
       [flux_condition; fixed_value; recomb_condition]
  /\ Forall (fun c => ~ untransformed (bc_value c))
       (outcome (apply_boundary_conditions mixed_simulation)).1.
Proof.
  assert (Forall (fun BC : gmap string pyval => BC !! "component" = None)
            [flux_condition; fixed_value; recomb_condition]) as Hc
    by (repeat constructor).
  split; [reflexivity |]. split; [reflexivity |]. split; [exact Hc |].
  destruct (transform_follows_mode mixed_simulation
              (outcome (apply_boundary_conditions mixed_simulation)).1
              (outcome (apply_boundary_conditions mixed_simulation)).2
              eq_refl) as [_ Hon].
  apply Hon; [reflexivity | exact Hc].
Defined.

Lemma thermal_constraints_witness :
  define_dirichlet_bcs_T mixed_simulation
  = Ok (outcome (define_dirichlet_bcs_T mixed_simulation))
  /\ bc_surface <$> (outcome (define_dirichlet_bcs_T mixed_simulation)).1
     = [VInt 1; VInt 2]
  /\ length (outcome (define_dirichlet_bcs_T mixed_simulation)).2 = 1%nat
  /\ Forall (fun c => bc_space c = V_CG1 mixed_simulation
                      /\ bc_markers c = surface_markers mixed_simulation
                      /\ exists e, bc_value c = Value (Expr e)
                                   /\ degree e = 2%Z)
       (outcome (define_dirichlet_bcs_T mixed_simulation)).1.
Proof.
  split; [reflexivity |].
  exact (thermal_constraints mixed_simulation
           (outcome (define_dirichlet_bcs_T mixed_simulation)).1
           (outcome (define_dirichlet_bcs_T mixed_simulation)).2 eq_refl).
Defined.

Lemma each_kind_one_builder_witness :
  flux_condition !! "type" = Some (VStr "flux")
  /\ In "flux" (bc_types "neumann" ++ bc_types "robin")
  /\ apply_boundary_condition mixed_simulation ([], []) flux_condition
     = Ok ([], []).
Proof.
  assert (In "flux" (bc_types "neumann" ++ bc_types "robin")) as Hin
    by (left; reflexivity).
  split; [reflexivity |]. split; [exact Hin |].
  destruct (each_kind_one_builder mixed_simulation flux_condition "flux"
              eq_refl) as [_ H].
  exact (H Hin ([], [])).
Defined.

Lemma kind_not_a_string_witness :
  numbered_condition !! "type" = Some (VInt 5)
  /\ (forall s, VInt 5 <> VStr s)
  /\ apply_boundary_condition mixed_simulation ([], []) numbered_condition
     = Raise TypeError
  /\ apply_flux 1 mixed_simulation ([], []) numbered_condition
     = Raise TypeError.
Proof.
  assert (forall s, VInt 5 <> VStr s) as Hns by (intros s; discriminate).
  split; [reflexivity |]. split; [exact Hns |].
  destruct (kind_not_a_string mixed_simulation numbered_condition (VInt 5)
              eq_refl Hns) as (H1 & H2 & _).
  split; [apply H1 | apply H2].
Defined.

Lemma missing_type_witness :
  typeless_condition !! "type" = None
  /\ apply_boundary_condition mixed_simulation ([], []) typeless_condition
     = Raise (KeyError "Missing boundary condition type key")
  /\ define_dirichlet_bc_T mixed_simulation ([], []) typeless_condition
     = Raise (KeyError "type").
Proof.
  split; [reflexivity |].
  destruct (missing_type mixed_simulation typeless_condition eq_refl)
    as (H1 & _ & H3).
  split; [apply H1 | apply H3].
Defined.

Lemma flux_terms_witness :
  apply_fluxes 1 mixed_simulation
  = Ok (mixed_flux_terms, [Value (Expr (mkExpression (VSym "2*t") 0 2))])
  /\ term_surface <$> mixed_flux_terms = [VInt 3; VInt 1; VInt 2]
  /\ length [Value (Expr (mkExpression (VSym "2*t") 0 2))] = 1%nat
  /\ Forall (flux_term_ok mixed_simulation) mixed_flux_terms.
Proof.
  assert (apply_fluxes 1 mixed_simulation
          = Ok (mixed_flux_terms,
                [Value (Expr (mkExpression (VSym "2*t") 0 2))])) as Heq.
  { unfold apply_fluxes.
    change (boundary_conditions (parameters mixed_simulation))
      with [flux_condition; fixed_value; recomb_condition].
    cbn [for_each].
    change (apply_flux 1 mixed_simulation ([], []) flux_condition)
      with (Ok ([mkTerm (FluxExpression (mkExpression (VSym "2*t") 0 2))
                   (VInt 3)],
                [Value (Expr (mkExpression (VSym "2*t") 0 2))])
            : result (list flux_term * list expression)).
    cbn [mbind result_bind].
    change (apply_flux 1 mixed_simulation
              ([mkTerm (FluxExpression (mkExpression (VSym "2*t") 0 2))
                  (VInt 3)],
               [Value (Expr (mkExpression (VSym "2*t") 0 2))]) fixed_value)
      with (Ok ([mkTerm (FluxExpression (mkExpression (VSym "2*t") 0 2))
                   (VInt 3)],
                [Value (Expr (mkExpression (VSym "2*t") 0 2))])
            : result (list flux_term * list expression)).
    cbn [mbind result_bind]. unfold apply_flux.
    change (getitem recomb_condition "type") with (Ok (VStr "recomb")).
    cbn [mbind result_bind].
    change (getitem recomb_condition "Kr_0") with (Ok (VFloat 1)).
    change (getitem recomb_condition "E_Kr") with (Ok (VFloat 0)).
    change (getitem recomb_condition "order") with (Ok (VInt 2)).
    change (getitem recomb_condition "surfaces") with (Ok (VList [1%Z; 2%Z])).
    cbn -[fdiv]. rewrite fdiv_Ok by lra. reflexivity. }
  split; [exact Heq |].
  exact (flux_terms 1 mixed_simulation mixed_flux_terms
           [Value (Expr (mkExpression (VSym "2*t") 0 2))] Heq).
Defined.

Lemma both_recombination_keys_witness :
  implantation_both_keys !! "type" = Some (VStr "dc_imp")
  /\ implantation_both_keys !! "K_0" = Some (VFloat 1)
  /\ implantation_both_keys !! "E_K" = Some (VFloat 0)
  /\ apply_boundary_condition implantation_simulation ([], [])
       implantation_both_keys
     = Ok ([mkDirichletBC (V implantation_simulation)
              (Value (Recomb sample_recomb))
              (surface_markers implantation_simulation) (VInt 1)],
           [Value (Expr (mkExpression (VSym "1e18") 0 1));
            Value (Expr (mkExpression (VSym "1e-9") 0 1));
            Value (Recomb sample_recomb)]).
Proof.
  split; [reflexivity |]. split; [reflexivity |]. split; [reflexivity |].
  destruct (both_recombination_keys implantation_simulation [] []
              implantation_both_keys (VSym "1e18") (VSym "1e-9")
              (VFloat 1) (VFloat 0) (VFloat 1) (VFloat 0) (VInt 1)
              eq_refl eq_refl eq_refl eq_refl eq_refl eq_refl eq_refl eq_refl)
    as [Hstep _].
  exact Hstep.
Defined.

Lemma surfaces_normalised_witness :
  apply_boundary_conditions bare_simulation
  = apply_boundary_conditions singleton_simulation
  /\ define_dirichlet_bcs_T bare_simulation
     = define_dirichlet_bcs_T singleton_simulation
  /\ apply_boundary_conditions bare_simulation
     = Ok (outcome (apply_boundary_conditions bare_simulation))
  /\ bc_surface <$> (outcome (apply_boundary_conditions bare_simulation)).1
     = [VInt 3]
  /\ length (outcome (apply_boundary_conditions bare_simulation)).1 = 1%nat
  /\ define_dirichlet_bcs_T bare_simulation
     = Ok (outcome (define_dirichlet_bcs_T bare_simulation))
  /\ bc_surface <$> (outcome (define_dirichlet_bcs_T bare_simulation)).1
     = [VInt 3]
  /\ length (outcome (define_dirichlet_bcs_T bare_simulation)).1 = 1%nat.
Proof.
  destruct (surfaces_normalised bare_simulation [] []
              [<["surfaces":=VInt 3]> fixed_value] fixed_value 3)
    as (Hc & Ht & Hcount & Htcount).
  destruct (Hcount (outcome (apply_boundary_conditions bare_simulation)).1
              (outcome (apply_boundary_conditions bare_simulation)).2 eq_refl)
    as [Hs Hn].
  destruct (Htcount (outcome (define_dirichlet_bcs_T bare_simulation)).1
              (outcome (define_dirichlet_bcs_T bare_simulation)).2 eq_refl)
    as [Hs' Hn'].
  split; [exact Hc |]. split; [exact Ht |]. split; [reflexivity |].
  split; [exact Hs |]. split; [exact Hn |]. split; [reflexivity |].
  split; [exact Hs' | exact Hn'].
Defined.
